(** * Response-event aggregation and the LLM conversation log

    A shallow embedding of [prompting/dendrite.py]
    ([DendriteResponseEvent.__init__]) and of the bookkeeping part of
    [prompting/llms/vllm_llm.py] ([vLLM_LLM.__init__], [vLLM_LLM.query]),
    with the properties the specification states about them.

    Python objects are mutable and shared, and the constructor of
    [DendriteResponseEvent] assigns to [synapse.dendrite.status_code]; the
    terminal-info objects therefore live in an explicit store, and a synapse
    holds a reference into it.  Two synapses may hold the same reference.

    Time values ([process_time], [timeout]) are rationals: the constructor
    never computes with them, it only tests their truth value and copies
    them. *)

From Stdlib Require Import ZArith QArith String List Bool Lia.
From stdpp Require Import base option list gmap strings.

Local Open Scope Z_scope.

(** ** Python truth values and the [or] operator on an optional float *)

Module Py.

(** [bool(x)] for [x : Optional[float]]: [None] and zero are false. *)
Definition truthy (x : option Q) : bool :=
  match x with
  | Some q => negb (Qeq_bool q 0)
  | None => false
  end.

(** [x or y]: [x] when it is true, otherwise [y]. *)
Definition or_else (x : option Q) (y : Q) : Q :=
  match x with
  | Some q => if truthy x then q else y
  | None => y
  end.

(** [len(s) == 0] on a string. *)
Definition len_is_zero (s : string) : bool :=
  Nat.eqb (String.length s) 0.

End Py.

(** ** prompting/dendrite.py *)

Module Dendrite.

(** A reference to a terminal-info object. *)
Abbreviation loc := positive (only parsing).

(** [ct.TerminalInfo], the fields the constructor reads. *)
Record TerminalInfo : Type := mkTerminalInfo {
  process_time : option Q;
  status_code : Z;
  status_message : string
}.

(** [ct.Synapse]: the completion and the reference held in attribute
    [dendrite].  The constructor never assigns to a synapse attribute,
    only to an attribute of the object [synapse.dendrite] refers to. *)
Record Synapse : Type := mkSynapse {
  completion : string;
  dendrite : loc
}.

(** The object store. *)
Abbreviation heap := (gmap positive TerminalInfo) (only parsing).

(** [d.status_code = c] *)
Definition set_status_code (c : Z) (d : TerminalInfo) : TerminalInfo :=
  {| process_time := process_time d;
     status_code := c;
     status_message := status_message d |}.

(** The attributes of [self]. *)
Record ResponseEvent : Type := mkResponseEvent {
  uids : list Z;
  completions : list string;
  status_messages : list string;
  status_codes : list Z;
  timings : list Q
}.

(** Lines 10-14: [self.uids = uids] and four empty lists. *)
Definition fresh (uids0 : list Z) : ResponseEvent :=
  {| uids := uids0;
     completions := [];
     status_messages := [];
     status_codes := [];
     timings := [] |}.

(** Lines 20-21: the test of the reclassification. *)
Definition empty_ok (synapse : Synapse) (d : TerminalInfo) : bool :=
  Py.len_is_zero (completion synapse) && (status_code d =? 200).

(** Lines 25-33: the timing the loop appends, read after the
    reclassification. *)
Definition loop_timing (timeout : Q) (d : TerminalInfo) : Q :=
  if Py.truthy (process_time d)
     && ((status_code d =? 200) || (status_code d =? 204))
  then default 0%Q (process_time d)
  else if status_code d =? 408 then timeout
  else 0%Q.

(** Lines 16-33: the [for] loop.  A reference that is not in the store
    cannot occur in Python; the model answers [None] there. *)
Fixpoint loop (timeout : Q) (responses : list Synapse)
    (h : heap) (self : ResponseEvent) : option (heap * ResponseEvent) :=
  match responses with
  | [] => Some (h, self)
  | synapse :: rest =>
      match h !! dendrite synapse with
      | None => None
      | Some d =>
          let d' := if empty_ok synapse d then set_status_code 204 d else d in
          let h' := if empty_ok synapse d
                    then <[dendrite synapse := d']> h else h in
          loop timeout rest h'
            {| uids := uids self;
               completions := completions self ++ [completion synapse];
               status_messages := status_messages self ++ [status_message d];
               status_codes := status_codes self ++ [status_code d'];
               timings := timings self ++ [loop_timing timeout d'] |}
      end
  end.

(** Lines 35-42: the four comprehensions, which read the store the loop
    left behind and replace the lists the loop built. *)
Definition overwrite (timeout : Q) (responses : list Synapse)
    (h : heap) (self : ResponseEvent) : option ResponseEvent :=
  tms ← mapM (λ synapse, d ← h !! dendrite synapse;
                Some (Py.or_else (process_time d) timeout)) responses;
  msgs ← mapM (λ synapse, d ← h !! dendrite synapse;
                 Some (status_message d)) responses;
  codes ← mapM (λ synapse, d ← h !! dendrite synapse;
                  Some (status_code d)) responses;
  Some {| uids := uids self;
          completions := map completion responses;
          status_messages := msgs;
          status_codes := codes;
          timings := tms |}.

(** [DendriteResponseEvent(responses, uids, timeout)]: the store after the
    call and the object built. *)
Definition init (h : heap) (responses : list Synapse) (uids0 : list Z)
    (timeout : Q) : option (heap * ResponseEvent) :=
  '(h1, self1) ← loop timeout responses h (fresh uids0);
  self2 ← overwrite timeout responses h1 self1;
  Some (h1, self2).

(** Every reference of the batch is in the store. *)
Definition wf (h : heap) (responses : list Synapse) : Prop :=
  Forall (λ synapse, is_Some (h !! dendrite synapse)) responses.

(** Whether some response of the batch that holds reference [l] has an
    empty completion. *)
Definition touched (responses : list Synapse) (l : loc) : bool :=
  existsb (λ synapse, bool_decide (dendrite synapse = l)
                      && Py.len_is_zero (completion synapse)) responses.

(** What the loop makes of the object at [l]. *)
Definition reclassified (responses : list Synapse) (l : loc)
    (d : TerminalInfo) : TerminalInfo :=
  if touched responses l && (status_code d =? 200)
  then set_status_code 204 d else d.

(** The store one iteration leaves behind. *)
Definition step_heap (s : Synapse) (d : TerminalInfo)
    (h : gmap positive TerminalInfo) : gmap positive TerminalInfo :=
  if empty_ok s d
  then <[dendrite s := if empty_ok s d then set_status_code 204 d else d]> h
  else h.

(** What the constructor is shown to return: the store and the object in
    terms of the input. *)
Record init_post (h : gmap positive TerminalInfo) (rs : list Synapse)
    (us : list Z) (t : Q) (h1 : gmap positive TerminalInfo)
    (ev : ResponseEvent) : Prop := {
  post_heap : ∀ l, h1 !! l = reclassified rs l <$> h !! l;
  post_uids : uids ev = us;
  post_completions : completions ev = map completion rs;
  post_len_timings : length (timings ev) = length rs;
  post_len_messages : length (status_messages ev) = length rs;
  post_len_codes : length (status_codes ev) = length rs;
  post_timing : ∀ i s d, rs !! i = Some s → h !! dendrite s = Some d →
    timings ev !! i = Some (Py.or_else (process_time d) t);
  post_message : ∀ i s d, rs !! i = Some s → h !! dendrite s = Some d →
    status_messages ev !! i = Some (status_message d);
  post_code : ∀ i s d, rs !! i = Some s → h !! dendrite s = Some d →
    status_codes ev !! i
    = Some (if touched rs (dendrite s) && (status_code d =? 200)
            then 204 else status_code d)
}.

End Dendrite.

(** ** prompting/llms/vllm_llm.py *)

Module VllmLLM.

(** A chat message, the dict with keys [content] and [role]. *)
Record Message : Type := mkMessage {
  content : string;
  role : string
}.

(** [model_kwargs], the dict built in [__init__]. *)
Record ModelKwargs : Type := mkModelKwargs {
  temperature : Q;
  top_p : Q;
  max_tokens : Z
}.

(** The attributes of a [vLLM_LLM] the two methods read and write. *)
Record vLLM_LLM : Type := mkLLM {
  system_prompt : string;
  model_kwargs : ModelKwargs;
  messages : list Message;
  times : list Q
}.

Definition newline : string := String (Ascii.ascii_of_nat 10) EmptyString.

(** The text [_make_prompt] adds for one message; a role other than the
    three adds nothing. *)
Definition render (message : Message) : string :=
  if String.eqb (role message) "system" then
    "<|begin_of_text|><|start_header_id|>system<|end_header_id|>" +:+ newline
    +:+ "{{ " +:+ content message +:+ " }}<|eot_id|>"
  else if String.eqb (role message) "user" then
    "<|start_header_id|>user<|end_header_id|>" +:+ newline
    +:+ "{{ " +:+ content message +:+ " }}<|eot_id|>"
  else if String.eqb (role message) "assistant" then
    "<|start_header_id|>assistant<|end_header_id|>" +:+ newline
    +:+ "{{ " +:+ content message +:+ " }}<|eot_id|>"
  else EmptyString.

(** [_make_prompt]: the messages in order, then the tag of the
    assistant's turn. *)
Definition _make_prompt (msgs : list Message) : string :=
  fold_left (λ composed_prompt message, composed_prompt +:+ render message)
            msgs EmptyString
  +:+ "<|start_header_id|>assistant<|end_header_id|>".

Section Methods.

(** The pipeline object passed to the constructor: the answer to a
    composed prompt, or [None] when the call raises. *)
Variable llm_pipeline : string → ModelKwargs → option string.

(** [BaseLLM.clean_response], of the base class, and the type of its
    cleaners. *)
Variable Cleaner : Type.
Variable clean_response : option Cleaner → string → string.

(** [vLLM_LLM(llm_pipeline, system_prompt, max_new_tokens, temperature,
    top_p)]; the defaults are 256, 0.7 and 0.95. *)
Definition init (system_prompt0 : string) (max_new_tokens : Z)
    (temperature0 top_p0 : Q) : vLLM_LLM :=
  {| system_prompt := system_prompt0;
     model_kwargs := {| temperature := temperature0;
                        top_p := top_p0;
                        max_tokens := max_new_tokens |};
     messages := [ {| content := system_prompt0; role := "system" |} ];
     times := [0%Q] |}.

(** [forward] *)
Definition forward (self : vLLM_LLM) (msgs : list Message) : option string :=
  llm_pipeline (_make_prompt msgs) (model_kwargs self).

(** [query]; [t0] and [t1] are what the two calls of [time.time()]
    return.  A call of the pipeline that raises leaves [self] as it was:
    both assignments come after it. *)
Definition query (self : vLLM_LLM) (message role0 : string)
    (disregard_system_prompt : bool) (cleaner : option Cleaner)
    (t0 t1 : Q) : option (string * vLLM_LLM) :=
  let msgs := messages self ++ [ {| content := message; role := role0 |} ] in
  response ← forward self msgs;
  let response := clean_response cleaner response in
  Some (response,
        {| system_prompt := system_prompt self;
           model_kwargs := model_kwargs self;
           messages := msgs ++ [ {| content := response; role := "assistant" |} ];
           times := times self ++ [0%Q; (t1 - t0)%Q] |}).

(** The states of one object: as constructed, and after any number of
    calls of [query] that returned. *)
Inductive reachable (system_prompt0 : string) (max_new_tokens : Z)
    (temperature0 top_p0 : Q) : vLLM_LLM → Prop :=
| reach_init :
    reachable system_prompt0 max_new_tokens temperature0 top_p0
      (init system_prompt0 max_new_tokens temperature0 top_p0)
| reach_query self message role0 disregard cleaner t0 t1 response self' :
    reachable system_prompt0 max_new_tokens temperature0 top_p0 self →
    query self message role0 disregard cleaner t0 t1 = Some (response, self') →
    reachable system_prompt0 max_new_tokens temperature0 top_p0 self'.

End Methods.

End VllmLLM.

(** ** Concrete batches *)

Module Samples.
Import Dendrite.

(** Two terminal infos: a timeout that reports its own process time, and
    a success without one. *)
Definition store : gmap positive TerminalInfo :=
  <[1%positive := mkTerminalInfo (Some 5%Q) 408 "Timeout"]>
    (<[2%positive := mkTerminalInfo None 200 "OK"]> ∅).

(** Three responses; the last two hold the same terminal info. *)
Definition batch : list Synapse :=
  [ mkSynapse EmptyString 1; mkSynapse EmptyString 2; mkSynapse "hi" 2 ].

(** One node that answered nothing with status 200. *)
Definition silent_store : gmap positive TerminalInfo :=
  {[ 1%positive := mkTerminalInfo (Some (1 # 2)) 200 "OK" ]}.
Definition silent_batch : list Synapse := [ mkSynapse EmptyString 1 ].

(** One node that timed out after 5 seconds of a 10 second round. *)
Definition late_store : gmap positive TerminalInfo :=
  {[ 1%positive := mkTerminalInfo (Some 5%Q) 408 "Timeout" ]}.
Definition late_batch : list Synapse := [ mkSynapse EmptyString 1 ].

(** One node that could not be reached. *)
Definition dead_store : gmap positive TerminalInfo :=
  {[ 1%positive := mkTerminalInfo None 503 "Service unavailable" ]}.
Definition dead_batch : list Synapse := [ mkSynapse EmptyString 1 ].

(** One node that answered in a quarter of a second. *)
Definition quick_store : gmap positive TerminalInfo :=
  {[ 1%positive := mkTerminalInfo (Some (1 # 4)) 200 "OK" ]}.
Definition quick_batch : list Synapse := [ mkSynapse "Paris" 1 ].

(** A pipeline that always answers the same, and a cleaner-free
    [clean_response]. *)
Definition echo_pipeline (prompt : string) (kw : VllmLLM.ModelKwargs)
    : option string := Some "Austin".
Definition no_clean (cleaner : option unit) (response : string) : string :=
  response.

End Samples.

(** ** prompting/dendrite.py, the rest *)

Module DendriteMore.
Import Dendrite.

(** The terminal infos as the [for] loop of lines 16-33 reads them, one
    per iteration, each taken after the assignment of line 21 of its own
    iteration (and of the iterations before it). *)
Fixpoint seen (responses : list Synapse) (h : gmap positive TerminalInfo)
    : list TerminalInfo :=
  match responses with
  | [] => []
  | synapse :: rest =>
      match h !! dendrite synapse with
      | None => []
      | Some d =>
          let d' := if empty_ok synapse d then set_status_code 204 d else d in
          let h' := if empty_ok synapse d
                    then <[dendrite synapse := d']> h else h in
          d' :: seen rest h'
      end
  end.

(** The values of the dict [__state_dict__] returns: lists of integers,
    of strings and of floats. *)
Inductive PyList : Type :=
| Ints (l : list Z)
| Strs (l : list string)
| Nums (l : list Q).

(** Lines 44-51: [__state_dict__]; [self.uids.tolist()] is the list of the
    tensor's integers. *)
Definition __state_dict__ (self : ResponseEvent) : gmap string PyList :=
  <["uids" := Ints (uids self)]>
  (<["completions" := Strs (completions self)]>
  (<["timings" := Nums (timings self)]>
  (<["status_messages" := Strs (status_messages self)]>
  (<["status_codes" := Ints (status_codes self)]> ∅)))).

(** [len] of such a list. *)
Definition pylist_length (v : PyList) : nat :=
  match v with
  | Ints l => length l
  | Strs l => length l
  | Nums l => length l
  end.

End DendriteMore.

(** ** prompting/llms/vllm_llm.py, the rest *)

Module VllmMore.
Import VllmLLM.

(** Lines 134-146: what the [for] loop of [_make_prompt] composes, before
    the final tag is added. *)
Definition body (msgs : list Message) : string :=
  fold_left (λ composed_prompt message, composed_prompt +:+ render message)
            msgs EmptyString.

(** The roles [_make_prompt] has a branch for. *)
Definition known_role (message : Message) : bool :=
  String.eqb (role message) "system"
  || String.eqb (role message) "user"
  || String.eqb (role message) "assistant".

(** The numbers a keyword dict holds. *)
Inductive PyNum : Type :=
| PyFloat (q : Q)
| PyInt (z : Z).

(** Lines 103-107: the dict literal bound to [model_kwargs]. *)
Definition kwargs_dict (kw : ModelKwargs) : gmap string PyNum :=
  <["temperature" := PyFloat (temperature kw)]>
  (<["top_p" := PyFloat (top_p kw)]>
  (<["max_tokens" := PyInt (max_tokens kw)]> ∅)).

(** [SamplingParams(temperature=..., top_p=..., max_tokens=...)] *)
Record SamplingParams : Type := mkSamplingParams {
  sp_temperature : PyNum;
  sp_top_p : PyNum;
  sp_max_tokens : PyNum
}.

(** Lines 82-88: the three [model_kwargs.get(key, default)]. *)
Definition sampling_params (model_kwargs : gmap string PyNum)
    : SamplingParams :=
  {| sp_temperature := default (PyFloat (8 # 10)) (model_kwargs !! "temperature");
     sp_top_p := default (PyFloat (95 # 100)) (model_kwargs !! "top_p");
     sp_max_tokens := default (PyInt 256) (model_kwargs !! "max_tokens") |}.

(** The attributes of a [vLLMPipeline] other than the engine [self.llm]. *)
Record vLLMPipeline : Type := mkPipeline {
  mock : bool;
  gpus : Z
}.

Section Call.

(** [self.llm] called as a function, when it is the mock pipeline. *)
Variable mock_llm : string → gmap string PyNum → string.

(** [self.llm.generate]: for every request output the texts of its
    outputs, in order. *)
Variable generate : string → SamplingParams → list (list string).

(** Lines 77-91: [vLLMPipeline.__call__]; [output[0].outputs[0].text]
    raises when a list is empty. *)
Definition __call__ (self : vLLMPipeline) (composed_prompt : string)
    (model_kwargs : gmap string PyNum) : option string :=
  if mock self then Some (mock_llm composed_prompt model_kwargs)
  else
    let output := generate composed_prompt (sampling_params model_kwargs) in
    request ← output !! 0%nat;
    text ← request !! 0%nat;
    Some text.

(** The pipeline as [vLLM_LLM.forward] calls it, line 155:
    [self.llm_pipeline(composed_prompt, **self.model_kwargs)]. *)
Definition as_llm_pipeline (self : vLLMPipeline) (composed_prompt : string)
    (kw : ModelKwargs) : option string :=
  __call__ self composed_prompt (kwargs_dict kw).

End Call.

End VllmMore.

(** ** More concrete inputs *)

Module SamplesMore.
Import VllmLLM VllmMore.

(** The object of the example at the end of the module, and what it is
    after one answered query that took half a second. *)
Definition llm0 : vLLM_LLM :=
  init "You are a helpful AI assistant" 256 (7 # 10) (95 # 100).

Definition llm1 : vLLM_LLM :=
  {| system_prompt := "You are a helpful AI assistant";
     model_kwargs := mkModelKwargs (7 # 10) (95 # 100) 256;
     messages := [ mkMessage "You are a helpful AI assistant" "system";
                   mkMessage "What is the capital of Texas?" "user";
                   mkMessage "Austin" "assistant" ];
     times := [ 0%Q; 0%Q; ((201 # 2) - 100)%Q ] |}.

(** An engine-backed pipeline, an engine that answers every prompt with
    one output, and a mock that is never called. *)
Definition engine_pipe : vLLMPipeline := {| mock := false; gpus := 1 |}.
Definition one_output (prompt : string) (params : SamplingParams)
    : list (list string) := [ [ "Austin" ] ].
Definition unused_mock (prompt : string) (kwargs : gmap string PyNum)
    : string := EmptyString.

End SamplesMore.

(** ** Facts about the constructor of [DendriteResponseEvent] *)

Module DendriteFacts.
Import Dendrite.

Lemma len_is_zero_spec (s : string) :
  Py.len_is_zero s = true ↔ s = EmptyString.
Proof.
  unfold Py.len_is_zero. destruct s; simpl; split; intros H;
    try reflexivity; discriminate.
Qed.

Lemma truthy_pos (q : Q) : (0 < q)%Q → Py.truthy (Some q) = true.
Proof.
  intros Hq. unfold Py.truthy.
  destruct (Qeq_bool q 0) eqn:E; [|reflexivity].
  apply Qeq_bool_iff in E. rewrite E in Hq.
  exfalso. exact (Qlt_irrefl 0 Hq).
Qed.

Lemma or_else_truthy (q t : Q) :
  Py.truthy (Some q) = true → Py.or_else (Some q) t = q.
Proof. unfold Py.or_else. intros ->. reflexivity. Qed.

(** *** The store after the loop *)

Lemma touched_cons (s : Synapse) (rs : list Synapse) (l : positive) :
  touched (s :: rs) l
  = bool_decide (dendrite s = l) && Py.len_is_zero (completion s)
    || touched rs l.
Proof. reflexivity. Qed.

Lemma touched_lookup (rs : list Synapse) (i : nat) (s : Synapse) :
  rs !! i = Some s → completion s = EmptyString →
  touched rs (dendrite s) = true.
Proof.
  intros Hi Hc. unfold touched. apply existsb_exists.
  exists s. split.
  - apply list_elem_of_In, list_elem_of_lookup. eauto.
  - rewrite bool_decide_eq_true_2 by reflexivity.
    simpl. apply len_is_zero_spec, Hc.
Qed.

Lemma reclassified_nil (l : positive) (d : TerminalInfo) :
  reclassified [] l d = d.
Proof. reflexivity. Qed.

(** Reclassifying twice is reclassifying once: 204 is not 200. *)
Lemma reclassified_idem (rs : list Synapse) (l : positive) (d : TerminalInfo) :
  reclassified rs l (reclassified rs l d) = reclassified rs l d.
Proof.
  unfold reclassified.
  destruct (touched rs l); simpl; [|reflexivity].
  destruct (status_code d =? 200) eqn:E; simpl; [reflexivity|].
  rewrite E. reflexivity.
Qed.

Lemma reclassified_fields (rs : list Synapse) (l : positive) (d : TerminalInfo) :
  process_time (reclassified rs l d) = process_time d
  ∧ status_message (reclassified rs l d) = status_message d
  ∧ status_code (reclassified rs l d)
    = if touched rs l && (status_code d =? 200) then 204 else status_code d.
Proof.
  unfold reclassified.
  destruct (touched rs l && (status_code d =? 200)); simpl; auto.
Qed.

(** One iteration followed by the rest of the batch. *)
Lemma reclassified_step (s : Synapse) (rs : list Synapse) (l : positive)
    (h : gmap positive TerminalInfo) (d : TerminalInfo) :
  h !! dendrite s = Some d →
  reclassified rs l <$> step_heap s d h !! l
  = reclassified (s :: rs) l <$> h !! l.
Proof.
  intros Hd. unfold step_heap, reclassified. rewrite touched_cons.
  destruct (empty_ok s d) eqn:Eok; unfold empty_ok in Eok.
  - apply andb_prop in Eok as [Elen E]. rewrite Elen.
    destruct (decide (dendrite s = l)) as [<-|Hne].
    + rewrite bool_decide_eq_true_2 by reflexivity.
      rewrite lookup_insert_eq, Hd. simpl. rewrite E.
      rewrite andb_false_r. reflexivity.
    + rewrite bool_decide_eq_false_2 by assumption.
      rewrite lookup_insert_ne by assumption. reflexivity.
  - destruct (decide (dendrite s = l)) as [<-|Hne].
    + rewrite bool_decide_eq_true_2 by reflexivity. rewrite Hd. simpl.
      destruct (Py.len_is_zero (completion s)); simpl in *.
      * rewrite Eok, !andb_false_r. reflexivity.
      * reflexivity.
    + rewrite bool_decide_eq_false_2 by assumption. reflexivity.
Qed.

Lemma loop_heap (t : Q) (rs : list Synapse) :
  ∀ (h : gmap positive TerminalInfo) self h1 self1,
    loop t rs h self = Some (h1, self1) →
    ∀ l, h1 !! l = reclassified rs l <$> h !! l.
Proof.
  induction rs as [|s rs IH]; intros h self h1 self1 Hl l; simpl in Hl.
  - injection Hl as <- _.
    destruct (h !! l); reflexivity.
  - destruct (h !! dendrite s) as [d|] eqn:Hd; [|discriminate].
    rewrite (IH _ _ _ _ Hl l). apply (reclassified_step s rs l h d Hd).
Qed.

Lemma loop_uids (t : Q) (rs : list Synapse) :
  ∀ (h : gmap positive TerminalInfo) self h1 self1,
    loop t rs h self = Some (h1, self1) → uids self1 = uids self.
Proof.
  induction rs as [|s rs IH]; intros h self h1 self1 Hl; simpl in Hl.
  - injection Hl as _ <-. reflexivity.
  - destruct (h !! dendrite s) as [d|]; [|discriminate].
    rewrite (IH _ _ _ _ Hl). reflexivity.
Qed.

(** *** The constructor returns on every well-formed store *)

Lemma wf_step (s : Synapse) (rs : list Synapse)
    (h : gmap positive TerminalInfo) (d : TerminalInfo) :
  wf h rs → wf (step_heap s d h) rs.
Proof.
  unfold wf, step_heap. intros H. destruct (empty_ok s d); [|exact H].
  eapply Forall_impl; [exact H|]. simpl. intros x Hx.
  apply lookup_insert_is_Some'. right. exact Hx.
Qed.

Lemma loop_total (t : Q) (rs : list Synapse) :
  ∀ (h : gmap positive TerminalInfo) self,
    wf h rs → is_Some (loop t rs h self).
Proof.
  induction rs as [|s rs IH]; intros h self Hwf; simpl.
  - eauto.
  - inversion Hwf as [|? ? [d Hd] Hrest]; subst. rewrite Hd.
    apply IH, (wf_step s rs h d Hrest).
Qed.

Lemma loop_wf (t : Q) (rs : list Synapse)
    (h : gmap positive TerminalInfo) self h1 self1 :
  loop t rs h self = Some (h1, self1) → wf h rs → wf h1 rs.
Proof.
  intros Hl. unfold wf. intros H.
  eapply Forall_impl; [exact H|]. simpl. intros x [d Hx].
  rewrite (loop_heap _ _ _ _ _ _ Hl), Hx. simpl. eauto.
Qed.

(** A comprehension that reads one attribute of every terminal info. *)
Lemma read_all {B : Type} (g : TerminalInfo → B)
    (h : gmap positive TerminalInfo) (rs : list Synapse) :
  wf h rs →
  ∃ k, mapM (λ s, d ← h !! dendrite s; Some (g d)) rs = Some k
       ∧ length k = length rs
       ∧ ∀ i s d, rs !! i = Some s → h !! dendrite s = Some d →
                  k !! i = Some (g d).
Proof.
  intros Hwf.
  destruct (mapM_is_Some_2 (λ s, d ← h !! dendrite s; Some (g d)) rs)
    as [k Hk].
  { eapply Forall_impl; [exact Hwf|]. simpl. intros s [d ->]. simpl. eauto. }
  exists k. split; [exact Hk|].
  apply mapM_Some_1 in Hk. split.
  - symmetry. eapply Forall2_length, Hk.
  - intros i s d Hi Hd.
    destruct (Forall2_lookup_l _ _ _ _ _ Hk Hi) as (y & Hy & Hf).
    rewrite Hd in Hf. simpl in Hf. congruence.
Qed.

(** *** What the constructor returns *)

Lemma init_spec (h : gmap positive TerminalInfo) (rs : list Synapse)
    (us : list Z) (t : Q) :
  wf h rs →
  ∃ h1 ev, init h rs us t = Some (h1, ev) ∧ init_post h rs us t h1 ev.
Proof.
  intros Hwf. unfold init.
  destruct (loop_total t rs h (fresh us) Hwf) as [[h1 self1] Hl].
  rewrite Hl. simpl.
  pose proof (loop_wf _ _ _ _ _ _ Hl Hwf) as Hwf1.
  pose proof (loop_heap _ _ _ _ _ _ Hl) as Hh.
  pose proof (loop_uids _ _ _ _ _ _ Hl) as Hu.
  destruct (read_all (λ d, Py.or_else (process_time d) t) h1 rs Hwf1)
    as (tms & Etms & Ltms & Itms).
  destruct (read_all status_message h1 rs Hwf1) as (msgs & Emsgs & Lmsgs & Imsgs).
  destruct (read_all status_code h1 rs Hwf1) as (codes & Ecodes & Lcodes & Icodes).
  unfold overwrite. rewrite Etms, Emsgs, Ecodes. simpl.
  eexists _, _. split; [reflexivity|].
  split; simpl; try assumption; try reflexivity.
  - intros i s d Hi Hd.
    destruct (reclassified_fields rs (dendrite s) d) as (Ep & _ & _).
    rewrite <- Ep. apply (Itms i s); [exact Hi|]. rewrite Hh, Hd. reflexivity.
  - intros i s d Hi Hd.
    destruct (reclassified_fields rs (dendrite s) d) as (_ & Em & _).
    rewrite <- Em. apply (Imsgs i s); [exact Hi|]. rewrite Hh, Hd. reflexivity.
  - intros i s d Hi Hd.
    destruct (reclassified_fields rs (dendrite s) d) as (_ & _ & Ec).
    rewrite <- Ec. apply (Icodes i s); [exact Hi|]. rewrite Hh, Hd. reflexivity.
Qed.

(** *** Claims about the aggregated sequences *)

Lemma touched_inv (rs : list Synapse) (l : positive) :
  touched rs l = true →
  ∃ s, s ∈ rs ∧ dendrite s = l ∧ Py.len_is_zero (completion s) = true.
Proof.
  unfold touched. intros H. apply existsb_exists in H as (s & Hin & Hs).
  apply andb_prop in Hs as [Hl Hc]. apply bool_decide_eq_true in Hl.
  exists s. split; [apply list_elem_of_In, Hin|]. auto.
Qed.

Lemma overwrite_uids (t : Q) (rs : list Synapse)
    (h : gmap positive TerminalInfo) (self : ResponseEvent) :
  overwrite t rs h self = overwrite t rs h (fresh (uids self)).
Proof. reflexivity. Qed.

(** C1.  A response that comes in with an empty completion and status code
    200 has status code 204 in the [status_codes] of the event built, for
    every batch and every store that holds the batch's terminal infos. *)
Theorem C1_empty_200_is_204 (h : gmap positive TerminalInfo)
    (rs : list Synapse) (us : list Z) (t : Q) :
  wf h rs →
  ∃ h1 ev, init h rs us t = Some (h1, ev)
    ∧ ∀ i s d, rs !! i = Some s → h !! dendrite s = Some d →
        completion s = EmptyString → status_code d = 200 →
        status_codes ev !! i = Some 204.
Proof.
  intros Hwf. destruct (init_spec h rs us t Hwf) as (h1 & ev & E & P).
  exists h1, ev. split; [exact E|].
  intros i s d Hi Hd Hc Hs.
  rewrite (post_code _ _ _ _ _ _ P i s d Hi Hd).
  rewrite (touched_lookup rs i s Hi Hc), Hs. reflexivity.
Qed.

Lemma wf_silent : wf Samples.silent_store Samples.silent_batch.
Proof. repeat constructor. eexists. reflexivity. Defined.

Lemma C1_witness :
  wf Samples.silent_store Samples.silent_batch
  ∧ ∃ h1 ev, init Samples.silent_store Samples.silent_batch [7] 10%Q
             = Some (h1, ev)
      ∧ status_codes ev !! 0%nat = Some 204.
Proof.
  split; [exact wf_silent|].
  destruct (C1_empty_200_is_204 Samples.silent_store Samples.silent_batch
              [7] 10%Q wf_silent) as (h1 & ev & E & H).
  exists h1, ev. split; [exact E|].
  apply (H 0%nat (mkSynapse EmptyString 1)
           (mkTerminalInfo (Some (1 # 2)) 200 "OK")); reflexivity.
Defined.

(** C2.  On a response with status code 408 whose [process_time] is 5 in a
    round with timeout 10, the loop appends the timeout, 10, and the
    comprehension that replaces the list puts the process time, 5. *)
Theorem C2_timeout_timing_overwritten :
  (timings ∘ snd <$> loop 10%Q Samples.late_batch Samples.late_store (fresh [7]))
  = Some [10%Q]
  ∧ (timings ∘ snd <$> init Samples.late_store Samples.late_batch [7] 10%Q)
    = Some [5%Q].
Proof. split; vm_compute; reflexivity. Qed.

(** C3.  On a response with status code 503 and no [process_time] in a
    round with timeout 10, the loop appends 0, and the comprehension that
    replaces the list puts the timeout, 10. *)
Theorem C3_dead_timing_overwritten :
  (timings ∘ snd <$> loop 10%Q Samples.dead_batch Samples.dead_store (fresh [7]))
  = Some [0%Q]
  ∧ (timings ∘ snd <$> init Samples.dead_store Samples.dead_batch [7] 10%Q)
    = Some [10%Q]
  ∧ ¬ (10 == 0)%Q.
Proof. repeat split; try (vm_compute; reflexivity). discriminate. Qed.

(** C4.  A response with status code 200 and a process time that is true
    in Python's sense (not [None], not zero; every positive time is) has
    that process time as its entry of [timings]. *)
Theorem C4_ok_timing_is_process_time (h : gmap positive TerminalInfo)
    (rs : list Synapse) (us : list Z) (t : Q) :
  wf h rs →
  ∃ h1 ev, init h rs us t = Some (h1, ev)
    ∧ ∀ i s d q, rs !! i = Some s → h !! dendrite s = Some d →
        status_code d = 200 → process_time d = Some q →
        (Py.truthy (Some q) = true ∨ (0 < q)%Q) →
        timings ev !! i = Some q.
Proof.
  intros Hwf. destruct (init_spec h rs us t Hwf) as (h1 & ev & E & P).
  exists h1, ev. split; [exact E|].
  intros i s d q Hi Hd _ Hp Hq.
  rewrite (post_timing _ _ _ _ _ _ P i s d Hi Hd), Hp.
  f_equal. apply or_else_truthy.
  destruct Hq as [Hq|Hq]; [exact Hq|apply truthy_pos, Hq].
Qed.

Lemma wf_quick : wf Samples.quick_store Samples.quick_batch.
Proof. repeat constructor. eexists. reflexivity. Defined.

Lemma C4_witness :
  wf Samples.quick_store Samples.quick_batch
  ∧ ∃ h1 ev, init Samples.quick_store Samples.quick_batch [7] 10%Q
             = Some (h1, ev)
      ∧ timings ev !! 0%nat = Some (1 # 4)%Q.
Proof.
  split; [exact wf_quick|].
  destruct (C4_ok_timing_is_process_time Samples.quick_store
              Samples.quick_batch [7] 10%Q wf_quick) as (h1 & ev & E & H).
  exists h1, ev. split; [exact E|].
  apply (H 0%nat (mkSynapse "Paris" 1)
           (mkTerminalInfo (Some (1 # 4)) 200 "OK") (1 # 4)%Q);
    try reflexivity.
  left. reflexivity.
Defined.

(** C5, as stated: the final [status_codes] would hold the status code
    each response came in with.  A response that comes in with an empty
    completion and 200 ends with 204: the loop has assigned 204 to its
    terminal info before the comprehension reads it. *)
Lemma C5_counterexample :
  ¬ (∀ (h : gmap positive TerminalInfo) rs us t h1 ev,
       init h rs us t = Some (h1, ev) →
       ∀ i s d, rs !! i = Some s → h !! dendrite s = Some d →
         timings ev !! i = Some (Py.or_else (process_time d) t)
         ∧ status_messages ev !! i = Some (status_message d)
         ∧ status_codes ev !! i = Some (status_code d)).
Proof.
  intros H.
  destruct (init Samples.silent_store Samples.silent_batch [7] 10%Q)
    as [[h1 ev]|] eqn:E; [|vm_compute in E; discriminate].
  destruct (H _ _ _ _ _ _ E 0%nat (mkSynapse EmptyString 1)
              (mkTerminalInfo (Some (1 # 2)) 200 "OK")
              eq_refl eq_refl) as (_ & _ & Hc).
  vm_compute in E. injection E as _ <-. discriminate Hc.
Qed.

(** C5, amended.  After the overwriting pass every entry of [timings] is
    [process_time or timeout], every entry of [status_messages] is the
    status message that came in, and every entry of [status_codes] is the
    status code the response's terminal info holds after the loop: 204
    when it came in as 200 and a response of the batch holding that
    terminal info has an empty completion, the code that came in
    otherwise. *)
Theorem C5_overwrite_reads_store_after_loop (h : gmap positive TerminalInfo)
    (rs : list Synapse) (us : list Z) (t : Q) :
  wf h rs →
  ∃ h1 ev, init h rs us t = Some (h1, ev)
    ∧ ∀ i s d, rs !! i = Some s → h !! dendrite s = Some d →
        timings ev !! i = Some (Py.or_else (process_time d) t)
        ∧ status_messages ev !! i = Some (status_message d)
        ∧ status_codes ev !! i
          = Some (if touched rs (dendrite s) && (status_code d =? 200)
                  then 204 else status_code d)
        ∧ (completion s = EmptyString → status_code d = 200 →
           status_codes ev !! i = Some 204)
        ∧ (touched rs (dendrite s) = false →
           status_codes ev !! i = Some (status_code d)).
Proof.
  intros Hwf. destruct (init_spec h rs us t Hwf) as (h1 & ev & E & P).
  exists h1, ev. split; [exact E|].
  intros i s d Hi Hd.
  pose proof (post_code _ _ _ _ _ _ P i s d Hi Hd) as Hc.
  split; [exact (post_timing _ _ _ _ _ _ P i s d Hi Hd)|].
  split; [exact (post_message _ _ _ _ _ _ P i s d Hi Hd)|].
  split; [exact Hc|]. split.
  - intros He Hs. rewrite Hc, (touched_lookup rs i s Hi He), Hs. reflexivity.
  - intros Ht. rewrite Hc, Ht. reflexivity.
Qed.

Lemma wf_batch : wf Samples.store Samples.batch.
Proof. repeat constructor; eexists; reflexivity. Defined.

Lemma C5_witness :
  wf Samples.store Samples.batch
  ∧ ∃ h1 ev, init Samples.store Samples.batch [7; 8; 9] 10%Q = Some (h1, ev)
      ∧ timings ev !! 2%nat = Some 10%Q
      ∧ status_messages ev !! 2%nat = Some "OK"
      ∧ status_codes ev !! 2%nat = Some 204.
Proof.
  split; [exact wf_batch|].
  destruct (C5_overwrite_reads_store_after_loop Samples.store Samples.batch
              [7; 8; 9] 10%Q wf_batch) as (h1 & ev & E & H).
  exists h1, ev. split; [exact E|].
  destruct (H 2%nat (mkSynapse "hi" 2) (mkTerminalInfo None 200 "OK")
              eq_refl eq_refl) as (Ht & Hm & Hc & _).
  split; [exact Ht|]. split; [exact Hm|exact Hc].
Defined.

(** C6, as stated: the five lengths would agree for every sequence of
    uids.  The constructor stores [uids] as it is given; with no response
    and one uid the lengths are 0 and 1. *)
Lemma C6_counterexample :
  ¬ (∀ (h : gmap positive TerminalInfo) rs us t h1 ev,
       init h rs us t = Some (h1, ev) →
       length (completions ev) = length (timings ev)
       ∧ length (timings ev) = length (status_messages ev)
       ∧ length (status_messages ev) = length (status_codes ev)
       ∧ length (status_codes ev) = length (uids ev)
       ∧ length (uids ev) = length rs).
Proof.
  intros H.
  destruct (H ∅ [] [7] 10%Q ∅ (fresh [7])) as (_ & _ & _ & _ & Hu).
  - reflexivity.
  - discriminate Hu.
Qed.

(** C6, amended.  The four sequences the constructor computes have the
    length of the batch and [uids] is the sequence supplied, so the five
    lengths agree exactly when as many uids as responses are supplied;
    entry [i] of each computed sequence comes from response [i]. *)
Theorem C6_lengths_and_alignment (h : gmap positive TerminalInfo)
    (rs : list Synapse) (us : list Z) (t : Q) :
  wf h rs →
  ∃ h1 ev, init h rs us t = Some (h1, ev)
    ∧ length (completions ev) = length rs
    ∧ length (timings ev) = length rs
    ∧ length (status_messages ev) = length rs
    ∧ length (status_codes ev) = length rs
    ∧ uids ev = us
    ∧ (length (uids ev) = length rs ↔ length us = length rs)
    ∧ ∀ i s, rs !! i = Some s →
        completions ev !! i = Some (completion s)
        ∧ ∃ d1, h1 !! dendrite s = Some d1
            ∧ timings ev !! i = Some (Py.or_else (process_time d1) t)
            ∧ status_messages ev !! i = Some (status_message d1)
            ∧ status_codes ev !! i = Some (status_code d1).
Proof.
  intros Hwf. destruct (init_spec h rs us t Hwf) as (h1 & ev & E & P).
  exists h1, ev. split; [exact E|].
  destruct P as [Hh Hu Hc Lt Lm Lc It Im Ic].
  split; [rewrite Hc; apply length_map|].
  do 3 (split; [assumption|]). split; [exact Hu|].
  split; [rewrite Hu; reflexivity|].
  intros i s Hi. split.
  - rewrite Hc. change (map completion rs) with (completion <$> rs).
    rewrite list_lookup_fmap, Hi. reflexivity.
  - pose proof (proj1 (Forall_lookup _ _) Hwf i s Hi) as [d Hd].
    destruct (reclassified_fields rs (dendrite s) d) as (Ep & Em & Ec).
    exists (reclassified rs (dendrite s) d).
    rewrite Hh, Hd, Ep, Em, Ec. simpl.
    split; [reflexivity|].
    split; [exact (It i s d Hi Hd)|].
    split; [exact (Im i s d Hi Hd)|exact (Ic i s d Hi Hd)].
Qed.

Lemma C6_witness :
  wf Samples.store Samples.batch
  ∧ ∃ h1 ev, init Samples.store Samples.batch [7; 8; 9] 10%Q = Some (h1, ev)
      ∧ length (completions ev) = 3%nat
      ∧ length (timings ev) = 3%nat
      ∧ length (status_messages ev) = 3%nat
      ∧ length (status_codes ev) = 3%nat
      ∧ length (uids ev) = 3%nat.
Proof.
  split; [exact wf_batch|].
  destruct (C6_lengths_and_alignment Samples.store Samples.batch
              [7; 8; 9] 10%Q wf_batch)
    as (h1 & ev & E & L1 & L2 & L3 & L4 & Hu & _).
  exists h1, ev. rewrite Hu. auto 10.
Defined.

(** C7, as stated: constructing the event would leave every response as
    it was.  The terminal info of a response that comes in with an empty
    completion and 200 holds 204 afterwards. *)
Lemma C7_counterexample :
  ¬ (∀ (h : gmap positive TerminalInfo) rs us t h1 ev,
       init h rs us t = Some (h1, ev) →
       ∀ s, s ∈ rs → h1 !! dendrite s = h !! dendrite s).
Proof.
  intros H.
  destruct (init Samples.silent_store Samples.silent_batch [7] 10%Q)
    as [[h1 ev]|] eqn:E; [|vm_compute in E; discriminate].
  pose proof (H _ _ _ _ _ _ E (mkSynapse EmptyString 1)) as H1.
  assert (Hc : status_code <$> h1 !! 1%positive = Some 204).
  { vm_compute in E. injection E as <- _. reflexivity. }
  simpl in H1. rewrite H1 in Hc.
  - vm_compute in Hc. discriminate Hc.
  - apply list_elem_of_here.
Qed.

(** C7, amended.  The constructor writes to the store in one way only:
    a terminal info that holds status code 200 and belongs to a response
    with an empty completion gets status code 204.  Every process time and
    status message stays, every other status code stays, no terminal info
    appears or disappears, and when no response has an empty completion
    with status code 200 the store is left as it was.  (Completions are
    never assigned to.) *)
Theorem C7_only_effect_is_204 (h : gmap positive TerminalInfo)
    (rs : list Synapse) (us : list Z) (t : Q) :
  wf h rs →
  ∃ h1 ev, init h rs us t = Some (h1, ev)
    ∧ (∀ l, h !! l = None → h1 !! l = None)
    ∧ (∀ l d, h !! l = Some d →
         ∃ d1, h1 !! l = Some d1
           ∧ process_time d1 = process_time d
           ∧ status_message d1 = status_message d
           ∧ status_code d1
             = if touched rs l && (status_code d =? 200)
               then 204 else status_code d)
    ∧ ((∀ s d, s ∈ rs → h !! dendrite s = Some d → empty_ok s d = false) →
       h1 = h).
Proof.
  intros Hwf. destruct (init_spec h rs us t Hwf) as (h1 & ev & E & P).
  exists h1, ev. split; [exact E|].
  pose proof (post_heap _ _ _ _ _ _ P) as Hh.
  split; [|split].
  - intros l Hl. rewrite Hh, Hl. reflexivity.
  - intros l d Hl. exists (reclassified rs l d).
    rewrite Hh, Hl. split; [reflexivity|apply reclassified_fields].
  - intros Hno. apply map_eq. intros l. rewrite Hh.
    destruct (h !! l) as [d|] eqn:Hl; [|reflexivity].
    simpl. f_equal. unfold reclassified.
    destruct (touched rs l) eqn:Ht; [|reflexivity].
    apply touched_inv in Ht as (s & Hin & <- & Hz).
    specialize (Hno s d Hin Hl). unfold empty_ok in Hno.
    rewrite Hz in Hno. simpl in *. rewrite Hno. reflexivity.
Qed.

Lemma C7_witness :
  wf Samples.store Samples.batch
  ∧ ∃ h1 ev, init Samples.store Samples.batch [7; 8; 9] 10%Q = Some (h1, ev)
      ∧ h1 !! 3%positive = None
      ∧ (status_code <$> h1 !! 1%positive) = Some 408
      ∧ (status_code <$> h1 !! 2%positive) = Some 204
      ∧ (status_message <$> h1 !! 2%positive) = Some "OK".
Proof.
  split; [exact wf_batch|].
  destruct (C7_only_effect_is_204 Samples.store Samples.batch
              [7; 8; 9] 10%Q wf_batch) as (h1 & ev & E & Hn & Hs & _).
  exists h1, ev. split; [exact E|].
  split; [apply Hn; reflexivity|].
  destruct (Hs 1%positive (mkTerminalInfo (Some 5%Q) 408 "Timeout") eq_refl)
    as (d1 & E1 & _ & _ & C1).
  destruct (Hs 2%positive (mkTerminalInfo None 200 "OK") eq_refl)
    as (d2 & E2 & _ & M2 & C2).
  rewrite E1, E2. simpl. rewrite C1, C2, M2. repeat split.
Defined.

(** C8.  Constructing the event a second time from the same batch, uids
    and timeout, in the store the first construction left, returns the
    same event (all five sequences) and leaves that store as it is. *)
Theorem C8_second_construction_same_event (h : gmap positive TerminalInfo)
    (rs : list Synapse) (us : list Z) (t : Q) :
  wf h rs →
  ∃ h1 ev, init h rs us t = Some (h1, ev)
           ∧ init h1 rs us t = Some (h1, ev).
Proof.
  intros Hwf.
  destruct (init_spec h rs us t Hwf) as (h1 & ev & E & _).
  exists h1, ev. split; [exact E|].
  unfold init in E |- *.
  destruct (loop t rs h (fresh us)) as [[h1' self1]|] eqn:Hl;
    [|discriminate E].
  simpl in E.
  destruct (overwrite t rs h1' self1) as [ev'|] eqn:Eo; [|discriminate E].
  simpl in E. injection E as -> ->.
  pose proof (loop_wf _ _ _ _ _ _ Hl Hwf) as Hwf1.
  destruct (loop_total t rs h1 (fresh us) Hwf1) as [[h2 self2] Hl2].
  assert (h2 = h1) as ->.
  { apply map_eq. intros l.
    rewrite (loop_heap _ _ _ _ _ _ Hl2 l), (loop_heap _ _ _ _ _ _ Hl l).
    destruct (h !! l); simpl; [|reflexivity].
    rewrite reclassified_idem. reflexivity. }
  rewrite Hl2. simpl.
  rewrite overwrite_uids, (loop_uids _ _ _ _ _ _ Hl2).
  rewrite overwrite_uids, (loop_uids _ _ _ _ _ _ Hl) in Eo.
  rewrite Eo. reflexivity.
Qed.

Lemma C8_witness :
  wf Samples.store Samples.batch
  ∧ ∃ h1 ev, init Samples.store Samples.batch [7; 8; 9] 10%Q = Some (h1, ev)
             ∧ init h1 Samples.batch [7; 8; 9] 10%Q = Some (h1, ev).
Proof.
  split; [exact wf_batch|].
  exact (C8_second_construction_same_event Samples.store Samples.batch
           [7; 8; 9] 10%Q wf_batch).
Defined.

End DendriteFacts.

(** ** Facts about the conversation log of [vLLM_LLM] *)

Module VllmFacts.
Import VllmLLM.

Section Log.

Variable llm_pipeline : string → ModelKwargs → option string.
Variable Cleaner : Type.
Variable clean_response : option Cleaner → string → string.

Lemma init_lengths (sp : string) (n : Z) (tp pp : Q) :
  length (messages (init sp n tp pp)) = 1%nat
  ∧ length (times (init sp n tp pp)) = 1%nat.
Proof. split; reflexivity. Qed.

(** A call of [query] returns exactly when the pipeline does. *)
Lemma query_returns (self : vLLM_LLM) (message role0 : string)
    (disregard : bool) (cleaner : option Cleaner) (t0 t1 : Q) :
  is_Some (query llm_pipeline Cleaner clean_response
             self message role0 disregard cleaner t0 t1)
  ↔ is_Some (forward llm_pipeline self
               (messages self ++ [mkMessage message role0])).
Proof.
  unfold query.
  destruct (forward llm_pipeline self
              (messages self ++ [mkMessage message role0])) as [r|];
    simpl; split; intros [x Hx]; eauto; discriminate.
Qed.

Lemma query_lengths (self : vLLM_LLM) (message role0 : string)
    (disregard : bool) (cleaner : option Cleaner) (t0 t1 : Q)
    (response : string) (self' : vLLM_LLM) :
  query llm_pipeline Cleaner clean_response
    self message role0 disregard cleaner t0 t1 = Some (response, self') →
  messages self'
  = messages self ++ [mkMessage message role0; mkMessage response "assistant"]
  ∧ times self' = times self ++ [0%Q; (t1 - t0)%Q].
Proof.
  unfold query.
  destruct (forward llm_pipeline self
              (messages self ++ [mkMessage message role0])) as [r|];
    simpl; [|discriminate].
  intros [= <- <-]. simpl. rewrite <- app_assoc. split; reflexivity.
Qed.

(** C10.  After construction [messages] and [times] have length 1; a call
    of [query] that returns appends two elements to each, the user message
    and the assistant's response to [messages], 0 and the elapsed time to
    [times]; so the two lengths are equal in every state the object
    reaches. *)
Theorem C10_messages_times_same_length (sp : string) (n : Z) (tp pp : Q) :
  (length (messages (init sp n tp pp)) = 1%nat
   ∧ length (times (init sp n tp pp)) = 1%nat)
  ∧ (∀ self message role0 disregard cleaner t0 t1 response self',
       query llm_pipeline Cleaner clean_response
         self message role0 disregard cleaner t0 t1 = Some (response, self') →
       messages self'
       = messages self
         ++ [mkMessage message role0; mkMessage response "assistant"]
       ∧ times self' = times self ++ [0%Q; (t1 - t0)%Q]
       ∧ length (messages self') = (length (messages self) + 2)%nat
       ∧ length (times self') = (length (times self) + 2)%nat)
  ∧ (∀ self,
       reachable llm_pipeline Cleaner clean_response sp n tp pp self →
       length (messages self) = length (times self)).
Proof.
  split; [apply init_lengths|]. split.
  - intros self message role0 disregard cleaner t0 t1 response self' Hq.
    destruct (query_lengths _ _ _ _ _ _ _ _ _ Hq) as [Hm Ht].
    rewrite Hm, Ht, !length_app. simpl. auto.
  - intros self Hr. induction Hr as [|self message role0 disregard cleaner
                                       t0 t1 response self' _ IH Hq].
    + reflexivity.
    + destruct (query_lengths _ _ _ _ _ _ _ _ _ Hq) as [Hm Ht].
      rewrite Hm, Ht, !length_app, IH. reflexivity.
Qed.

End Log.

Lemma C10_witness :
  let llm0 := init "You are a helpful AI assistant" 256 (7 # 10) (95 # 100) in
  ∃ self1,
    query Samples.echo_pipeline unit Samples.no_clean llm0
      "What is the capital of Texas?" "user" false None 100%Q (201 # 2)%Q
    = Some ("Austin", self1)
    ∧ length (messages self1) = 3%nat
    ∧ length (times self1) = 3%nat
    ∧ length (messages self1) = length (times self1).
Proof.
  intros llm0.
  destruct (C10_messages_times_same_length Samples.echo_pipeline unit
              Samples.no_clean "You are a helpful AI assistant" 256
              (7 # 10) (95 # 100)) as ((Lm & Lt) & Hq & Hr).
  fold llm0 in Lm, Lt.
  destruct (query Samples.echo_pipeline unit Samples.no_clean llm0
              "What is the capital of Texas?" "user" false None
              100%Q (201 # 2)%Q) as [[response self1]|] eqn:E;
    [|discriminate E].
  assert (response = "Austin") as -> by (injection E as <- _; reflexivity).
  exists self1. split; [reflexivity|].
  destruct (Hq _ _ _ _ _ _ _ _ _ E) as (_ & _ & Hm' & Ht').
  split; [rewrite Hm', Lm; reflexivity|].
  split; [rewrite Ht', Lt; reflexivity|].
  apply Hr. eapply reach_query; [apply reach_init|exact E].
Defined.

End VllmFacts.

(** ** More facts about [DendriteResponseEvent] *)

Module DendriteMoreFacts.
Import Dendrite DendriteMore DendriteFacts.

(** *** The lists the [for] loop builds *)

Lemma seen_length (rs : list Synapse) :
  ∀ h : gmap positive TerminalInfo, wf h rs → length (seen rs h) = length rs.
Proof.
  induction rs as [|s rs IH]; intros h Hwf; simpl; [reflexivity|].
  inversion Hwf as [|? ? [d Hd] Hrest]; subst. rewrite Hd. simpl.
  f_equal. apply IH. exact (wf_step s rs h d Hrest).
Qed.

Lemma loop_seen (t : Q) (rs : list Synapse) :
  ∀ (h : gmap positive TerminalInfo) self h1 self1,
    loop t rs h self = Some (h1, self1) →
    self1 = {| uids := uids self;
               completions := completions self ++ map completion rs;
               status_messages :=
                 status_messages self ++ map status_message (seen rs h);
               status_codes := status_codes self ++ map status_code (seen rs h);
               timings := timings self ++ map (loop_timing t) (seen rs h) |}.
Proof.
  induction rs as [|s rs IH]; intros h self h1 self1 Hl; simpl in Hl.
  - injection Hl as _ <-. simpl. rewrite !app_nil_r. destruct self; reflexivity.
  - destruct (h !! dendrite s) as [d|] eqn:Hd; [|discriminate].
    rewrite (IH _ _ _ _ Hl). simpl. rewrite Hd. simpl.
    rewrite <- !app_assoc. simpl.
    destruct (empty_ok s d); reflexivity.
Qed.

Lemma reclassified_one (s : Synapse) (d : TerminalInfo) :
  (if empty_ok s d then set_status_code 204 d else d)
  = reclassified [s] (dendrite s) d.
Proof.
  unfold reclassified, empty_ok. rewrite touched_cons.
  rewrite bool_decide_eq_true_2 by reflexivity. simpl.
  rewrite orb_false_r. reflexivity.
Qed.

(** What iteration [i] reads: the object as the first [i + 1] responses
    have left it. *)
Lemma seen_lookup (rs : list Synapse) :
  ∀ (h : gmap positive TerminalInfo) i s d,
    wf h rs → rs !! i = Some s → h !! dendrite s = Some d →
    seen rs h !! i = Some (reclassified (take (S i) rs) (dendrite s) d).
Proof.
  induction rs as [|s0 rs IH]; intros h i s d Hwf Hi Hd; [discriminate|].
  inversion Hwf as [|? ? [d0 Hd0] Hrest]; subst.
  simpl seen. rewrite Hd0. destruct i as [|i]; simpl in Hi.
  - injection Hi as ->. rewrite Hd in Hd0. injection Hd0 as <-.
    simpl. f_equal. rewrite take_0. apply reclassified_one.
  - change (seen rs (step_heap s0 d0 h) !! i
            = Some (reclassified (s0 :: take (S i) rs) (dendrite s) d)).
    pose proof (reclassified_step s0 [] (dendrite s) h d0 Hd0) as H0.
    pose proof (reclassified_step s0 (take (S i) rs) (dendrite s) h d0 Hd0)
      as H1.
    rewrite Hd in H0, H1.
    destruct (step_heap s0 d0 h !! dendrite s) as [x|] eqn:Hx;
      [|discriminate H0].
    rewrite (IH _ i s x (wf_step s0 rs h d0 Hrest) Hi Hx).
    exact H1.
Qed.

(** The loop on a fresh object, entry by entry. *)
Lemma first_pass (h : gmap positive TerminalInfo) (rs : list Synapse)
    (us : list Z) (t : Q) :
  wf h rs →
  ∃ h1 self1, loop t rs h (fresh us) = Some (h1, self1)
    ∧ completions self1 = map completion rs
    ∧ length (status_messages self1) = length rs
    ∧ length (status_codes self1) = length rs
    ∧ length (timings self1) = length rs
    ∧ ∀ i s d, rs !! i = Some s → h !! dendrite s = Some d →
        status_messages self1 !! i = Some (status_message d)
        ∧ status_codes self1 !! i
          = Some (status_code (reclassified (take (S i) rs) (dendrite s) d))
        ∧ timings self1 !! i
          = Some (loop_timing t
                    (reclassified (take (S i) rs) (dendrite s) d)).
Proof.
  intros Hwf.
  destruct (loop_total t rs h (fresh us) Hwf) as [[h1 self1] Hl].
  exists h1, self1. split; [exact Hl|].
  rewrite (loop_seen _ _ _ _ _ _ Hl). simpl.
  rewrite !length_map, (seen_length rs h Hwf).
  do 4 (split; [reflexivity|]).
  intros i s d Hi Hd.
  change (map ?f (seen rs h)) with (f <$> seen rs h).
  rewrite !list_lookup_fmap, (seen_lookup rs h i s d Hwf Hi Hd). simpl.
  destruct (reclassified_fields (take (S i) rs) (dendrite s) d) as (_ & -> & _).
  auto.
Qed.

Lemma reclassified_code_other (rs : list Synapse) (l : positive)
    (d : TerminalInfo) :
  status_code d ≠ 200 → reclassified rs l d = d.
Proof.
  intros H. unfold reclassified.
  destruct (Z.eqb_spec (status_code d) 200) as [E|_]; [contradiction|].
  rewrite andb_false_r. reflexivity.
Qed.

Lemma reclassified_code_ok (rs : list Synapse) (l : positive)
    (d : TerminalInfo) :
  status_code d = 200 ∨ status_code d = 204 →
  (status_code (reclassified rs l d) = 200
   ∨ status_code (reclassified rs l d) = 204)
  ∧ process_time (reclassified rs l d) = process_time d.
Proof.
  intros H. destruct (reclassified_fields rs l d) as (-> & _ & ->).
  split; [|reflexivity].
  destruct (touched rs l && (status_code d =? 200)); auto.
Qed.

(** X1.  The loop records the round timeout for a response that comes in with
    status code 408, whatever its process time, and keeps its 408. *)
Theorem loop_timeout_408 (h : gmap positive TerminalInfo)
    (rs : list Synapse) (us : list Z) (t : Q) :
  wf h rs →
  ∃ h1 self1, loop t rs h (fresh us) = Some (h1, self1)
    ∧ ∀ i s d, rs !! i = Some s → h !! dendrite s = Some d →
        status_code d = 408 →
        timings self1 !! i = Some t ∧ status_codes self1 !! i = Some 408.
Proof.
  intros Hwf. destruct (first_pass h rs us t Hwf)
    as (h1 & self1 & E & _ & _ & _ & _ & H).
  exists h1, self1. split; [exact E|].
  intros i s d Hi Hd Hc. destruct (H i s d Hi Hd) as (_ & -> & ->).
  rewrite reclassified_code_other by (rewrite Hc; discriminate).
  unfold loop_timing. rewrite Hc. simpl. rewrite andb_false_r. auto.
Qed.

Lemma loop_timeout_408_witness :
  wf Samples.store Samples.batch
  ∧ ∃ h1 self1, loop 10%Q Samples.batch Samples.store (fresh [7; 8; 9])
                = Some (h1, self1)
      ∧ timings self1 !! 0%nat = Some 10%Q
      ∧ status_codes self1 !! 0%nat = Some 408.
Proof.
  split; [exact wf_batch|].
  destruct (loop_timeout_408 Samples.store Samples.batch [7; 8; 9] 10%Q
              wf_batch) as (h1 & self1 & E & H).
  exists h1, self1. split; [exact E|].
  apply (H 0%nat (mkSynapse EmptyString 1)
           (mkTerminalInfo (Some 5%Q) 408 "Timeout")); reflexivity.
Defined.

(** X2.  The loop records 0 for a response whose status code is none of 200,
    204 and 408, whatever its process time. *)
Theorem loop_other_code_zero (h : gmap positive TerminalInfo)
    (rs : list Synapse) (us : list Z) (t : Q) :
  wf h rs →
  ∃ h1 self1, loop t rs h (fresh us) = Some (h1, self1)
    ∧ ∀ i s d, rs !! i = Some s → h !! dendrite s = Some d →
        status_code d ≠ 200 → status_code d ≠ 204 → status_code d ≠ 408 →
        timings self1 !! i = Some 0%Q
        ∧ status_codes self1 !! i = Some (status_code d).
Proof.
  intros Hwf. destruct (first_pass h rs us t Hwf)
    as (h1 & self1 & E & _ & _ & _ & _ & H).
  exists h1, self1. split; [exact E|].
  intros i s d Hi Hd H200 H204 H408.
  destruct (H i s d Hi Hd) as (_ & -> & ->).
  rewrite reclassified_code_other by assumption.
  split; [|reflexivity]. unfold loop_timing.
  destruct (Z.eqb_spec (status_code d) 200); [contradiction|].
  destruct (Z.eqb_spec (status_code d) 204); [contradiction|].
  destruct (Z.eqb_spec (status_code d) 408); [contradiction|].
  simpl. rewrite andb_false_r. reflexivity.
Qed.

Lemma wf_dead : wf Samples.dead_store Samples.dead_batch.
Proof. repeat constructor. eexists. reflexivity. Defined.

Lemma loop_other_code_zero_witness :
  wf Samples.dead_store Samples.dead_batch
  ∧ ∃ h1 self1, loop 10%Q Samples.dead_batch Samples.dead_store (fresh [7])
                = Some (h1, self1)
      ∧ timings self1 !! 0%nat = Some 0%Q
      ∧ status_codes self1 !! 0%nat = Some 503.
Proof.
  split; [exact wf_dead|].
  destruct (loop_other_code_zero Samples.dead_store Samples.dead_batch [7]
              10%Q wf_dead) as (h1 & self1 & E & H).
  exists h1, self1. split; [exact E|].
  apply (H 0%nat (mkSynapse EmptyString 1)
           (mkTerminalInfo None 503 "Service unavailable"));
    try reflexivity; discriminate.
Defined.

(** X3.  For a response that comes in with status code 200 or 204 the loop
    records the process time when it is true in Python's sense, and 0 when
    it is [None] or zero. *)
Theorem loop_ok_timing (h : gmap positive TerminalInfo)
    (rs : list Synapse) (us : list Z) (t : Q) :
  wf h rs →
  ∃ h1 self1, loop t rs h (fresh us) = Some (h1, self1)
    ∧ ∀ i s d, rs !! i = Some s → h !! dendrite s = Some d →
        status_code d = 200 ∨ status_code d = 204 →
        timings self1 !! i
        = Some (if Py.truthy (process_time d)
                then default 0%Q (process_time d) else 0%Q).
Proof.
  intros Hwf. destruct (first_pass h rs us t Hwf)
    as (h1 & self1 & E & _ & _ & _ & _ & H).
  exists h1, self1. split; [exact E|].
  intros i s d Hi Hd Hc. destruct (H i s d Hi Hd) as (_ & _ & ->).
  destruct (reclassified_code_ok (take (S i) rs) (dendrite s) d Hc)
    as (Hc' & Hp).
  unfold loop_timing. rewrite Hp.
  destruct (Py.truthy (process_time d)); simpl.
  - destruct Hc' as [-> | ->]; reflexivity.
  - destruct Hc' as [-> | ->]; reflexivity.
Qed.

Lemma loop_ok_timing_witness :
  wf Samples.store Samples.batch
  ∧ ∃ h1 self1, loop 10%Q Samples.batch Samples.store (fresh [7; 8; 9])
                = Some (h1, self1)
      ∧ timings self1 !! 1%nat = Some 0%Q.
Proof.
  split; [exact wf_batch|].
  destruct (loop_ok_timing Samples.store Samples.batch [7; 8; 9] 10%Q
              wf_batch) as (h1 & self1 & E & H).
  exists h1, self1. split; [exact E|].
  apply (H 1%nat (mkSynapse EmptyString 2) (mkTerminalInfo None 200 "OK"));
    try reflexivity.
  left. reflexivity.
Defined.

(** *** What the overwriting pass changes *)

(** In a batch where no two responses hold the same terminal info, the
    response at [i] is the only one that decides its reclassification. *)
Lemma touched_nodup (rs rs' : list Synapse) (i : nat) (s : Synapse) :
  NoDup (dendrite <$> rs) →
  (∀ j s', rs' !! j = Some s' → rs !! j = Some s') →
  rs' !! i = Some s →
  touched rs' (dendrite s) = Py.len_is_zero (completion s).
Proof.
  intros Hnd Hsub Hi.
  destruct (Py.len_is_zero (completion s)) eqn:Hz.
  - apply (touched_lookup rs' i s Hi). apply len_is_zero_spec, Hz.
  - destruct (touched rs' (dendrite s)) eqn:Ht; [|reflexivity].
    apply touched_inv in Ht as (s' & Hin & Hl & Hz').
    apply list_elem_of_lookup in Hin as [j Hj].
    assert (i = j) as <-.
    { apply (NoDup_lookup (dendrite <$> rs) i j (dendrite s)); [exact Hnd| |].
      - rewrite list_lookup_fmap, (Hsub _ _ Hi). reflexivity.
      - rewrite list_lookup_fmap, (Hsub _ _ Hj). simpl. congruence. }
    rewrite Hi in Hj. injection Hj as <-. congruence.
Qed.

Lemma list_eq_on {A B : Type} (rs : list A) (l1 l2 : list B) :
  length l1 = length rs → length l2 = length rs →
  (∀ i s, rs !! i = Some s → l1 !! i = l2 !! i) →
  l1 = l2.
Proof.
  intros L1 L2 H. apply list_eq. intros i.
  destruct (rs !! i) as [s|] eqn:Hi; [exact (H i s Hi)|].
  apply lookup_ge_None in Hi.
  rewrite (lookup_ge_None_2 l1), (lookup_ge_None_2 l2) by lia. reflexivity.
Qed.

(** X4.  When no two responses of the batch hold the same terminal info, the
    comprehensions of lines 35-42 give back the completions, status
    messages and status codes the loop had built: of the four lists only
    [timings] is changed by the second pass. *)
Theorem overwrite_changes_only_timings (h : gmap positive TerminalInfo)
    (rs : list Synapse) (us : list Z) (t : Q) :
  wf h rs → NoDup (dendrite <$> rs) →
  ∃ h1 self1 ev, loop t rs h (fresh us) = Some (h1, self1)
    ∧ init h rs us t = Some (h1, ev)
    ∧ completions ev = completions self1
    ∧ status_messages ev = status_messages self1
    ∧ status_codes ev = status_codes self1
    ∧ uids ev = uids self1.
Proof.
  intros Hwf Hnd.
  destruct (first_pass h rs us t Hwf)
    as (h1 & self1 & El & Hc1 & Lm1 & Lc1 & _ & H1).
  destruct (init_spec h rs us t Hwf) as (h1' & ev & Ei & P).
  assert (h1' = h1) as ->.
  { unfold init in Ei. rewrite El in Ei. simpl in Ei.
    destruct (overwrite t rs h1 self1); [|discriminate].
    simpl in Ei. congruence. }
  exists h1, self1, ev. split; [exact El|]. split; [exact Ei|].
  destruct P as [_ Hu Hc _ Lm Lc _ Im Ic].
  split; [congruence|]. split; [|split].
  - apply (list_eq_on rs); [assumption..|].
    intros i s Hi.
    destruct (proj1 (Forall_lookup _ _) Hwf i s Hi) as [d Hd].
    destruct (H1 i s d Hi Hd) as (-> & _). apply (Im i s d Hi Hd).
  - apply (list_eq_on rs); [assumption..|].
    intros i s Hi.
    destruct (proj1 (Forall_lookup _ _) Hwf i s Hi) as [d Hd].
    destruct (H1 i s d Hi Hd) as (_ & -> & _). rewrite (Ic i s d Hi Hd).
    destruct (reclassified_fields (take (S i) rs) (dendrite s) d)
      as (_ & _ & ->).
    rewrite (touched_nodup rs rs i s Hnd (λ _ _ H, H) Hi).
    rewrite (touched_nodup rs (take (S i) rs) i s Hnd).
    + reflexivity.
    + intros j s' Hj. apply lookup_take_Some in Hj as [Hj _]. exact Hj.
    + rewrite lookup_take_lt by lia. exact Hi.
  - rewrite Hu. rewrite (loop_uids _ _ _ _ _ _ El). reflexivity.
Qed.

Lemma overwrite_changes_only_timings_witness :
  (wf Samples.quick_store Samples.quick_batch
   ∧ NoDup (dendrite <$> Samples.quick_batch))
  ∧ ∃ h1 self1 ev,
      loop 10%Q Samples.quick_batch Samples.quick_store (fresh [7])
      = Some (h1, self1)
      ∧ init Samples.quick_store Samples.quick_batch [7] 10%Q = Some (h1, ev)
      ∧ completions ev = completions self1
      ∧ status_messages ev = status_messages self1
      ∧ status_codes ev = status_codes self1
      ∧ uids ev = uids self1.
Proof.
  assert (Hnd : NoDup (dendrite <$> Samples.quick_batch)).
  { simpl. apply NoDup_singleton. }
  split; [split; [exact wf_quick|exact Hnd]|].
  exact (overwrite_changes_only_timings Samples.quick_store
           Samples.quick_batch [7] 10%Q wf_quick Hnd).
Defined.

(** *** More about the event the constructor returns *)

(** X5.  A response without a usable process time ([None] or zero) gets the
    round timeout as its timing, whatever its status code: also a
    response with status code 200. *)
Theorem falsy_process_time_gets_timeout (h : gmap positive TerminalInfo)
    (rs : list Synapse) (us : list Z) (t : Q) :
  wf h rs →
  ∃ h1 ev, init h rs us t = Some (h1, ev)
    ∧ ∀ i s d, rs !! i = Some s → h !! dendrite s = Some d →
        Py.truthy (process_time d) = false →
        timings ev !! i = Some t.
Proof.
  intros Hwf. destruct (init_spec h rs us t Hwf) as (h1 & ev & E & P).
  exists h1, ev. split; [exact E|].
  intros i s d Hi Hd Hp. rewrite (post_timing _ _ _ _ _ _ P i s d Hi Hd).
  unfold Py.or_else. destruct (process_time d); [|reflexivity].
  rewrite Hp. reflexivity.
Qed.

Lemma falsy_process_time_gets_timeout_witness :
  wf Samples.store Samples.batch
  ∧ ∃ h1 ev, init Samples.store Samples.batch [7; 8; 9] 10%Q = Some (h1, ev)
      ∧ timings ev !! 1%nat = Some 10%Q.
Proof.
  split; [exact wf_batch|].
  destruct (falsy_process_time_gets_timeout Samples.store Samples.batch
              [7; 8; 9] 10%Q wf_batch) as (h1 & ev & E & H).
  exists h1, ev. split; [exact E|].
  apply (H 1%nat (mkSynapse EmptyString 2) (mkTerminalInfo None 200 "OK"));
    reflexivity.
Defined.

(** X6.  No entry of the event pairs an empty completion with status code
    200. *)
Theorem no_empty_completion_with_200 (h : gmap positive TerminalInfo)
    (rs : list Synapse) (us : list Z) (t : Q) :
  wf h rs →
  ∃ h1 ev, init h rs us t = Some (h1, ev)
    ∧ ∀ i, completions ev !! i = Some EmptyString →
           status_codes ev !! i ≠ Some 200.
Proof.
  intros Hwf. destruct (init_spec h rs us t Hwf) as (h1 & ev & E & P).
  exists h1, ev. split; [exact E|].
  intros i Hc. rewrite (post_completions _ _ _ _ _ _ P) in Hc.
  change (map completion rs) with (completion <$> rs) in Hc.
  apply list_lookup_fmap_Some in Hc as (s & Hs & Hi).
  destruct (proj1 (Forall_lookup _ _) Hwf i s Hi) as [d Hd].
  rewrite (post_code _ _ _ _ _ _ P i s d Hi Hd).
  rewrite (touched_lookup rs i s Hi (eq_sym Hs)). simpl.
  destruct (Z.eqb_spec (status_code d) 200); congruence.
Qed.

Lemma no_empty_completion_with_200_witness :
  wf Samples.silent_store Samples.silent_batch
  ∧ ∃ h1 ev, init Samples.silent_store Samples.silent_batch [7] 10%Q
             = Some (h1, ev)
      ∧ status_codes ev !! 0%nat ≠ Some 200.
Proof.
  split; [exact wf_silent|].
  destruct (no_empty_completion_with_200 Samples.silent_store
              Samples.silent_batch [7] 10%Q wf_silent) as (h1 & ev & E & H).
  exists h1, ev. split; [exact E|].
  apply H. unfold init in E. simpl in E.
  injection E as _ <-. reflexivity.
Defined.

(** X7.  Two responses that hold the same terminal info get the same final
    status code; so a response with a non-empty completion ends with 204
    when it shares a terminal info of status code 200 with a response
    whose completion is empty, wherever the two stand in the batch. *)
Theorem shared_terminal_info_same_code (h : gmap positive TerminalInfo)
    (rs : list Synapse) (us : list Z) (t : Q) :
  wf h rs →
  ∃ h1 ev, init h rs us t = Some (h1, ev)
    ∧ (∀ i j s s', rs !! i = Some s → rs !! j = Some s' →
         dendrite s = dendrite s' →
         status_codes ev !! i = status_codes ev !! j)
    ∧ (∀ i j s s' d, rs !! i = Some s → rs !! j = Some s' →
         dendrite s = dendrite s' → h !! dendrite s = Some d →
         completion s' = EmptyString → status_code d = 200 →
         status_codes ev !! i = Some 204).
Proof.
  intros Hwf. destruct (init_spec h rs us t Hwf) as (h1 & ev & E & P).
  exists h1, ev. split; [exact E|]. split.
  - intros i j s s' Hi Hj Hl.
    destruct (proj1 (Forall_lookup _ _) Hwf i s Hi) as [d Hd].
    rewrite (post_code _ _ _ _ _ _ P i s d Hi Hd).
    rewrite Hl in Hd. rewrite (post_code _ _ _ _ _ _ P j s' d Hj Hd).
    rewrite Hl. reflexivity.
  - intros i j s s' d Hi Hj Hl Hd He Hc.
    rewrite (post_code _ _ _ _ _ _ P i s d Hi Hd).
    rewrite Hl, (touched_lookup rs j s' Hj He), Hc. reflexivity.
Qed.

Lemma shared_terminal_info_same_code_witness :
  wf Samples.store Samples.batch
  ∧ ∃ h1 ev, init Samples.store Samples.batch [7; 8; 9] 10%Q = Some (h1, ev)
      ∧ completions ev !! 2%nat = Some "hi"
      ∧ status_codes ev !! 2%nat = Some 204.
Proof.
  split; [exact wf_batch|].
  destruct (shared_terminal_info_same_code Samples.store Samples.batch
              [7; 8; 9] 10%Q wf_batch) as (h1 & ev & E & _ & H).
  exists h1, ev. split; [exact E|]. split.
  - unfold init in E. simpl in E. injection E as _ <-. reflexivity.
  - apply (H 2%nat 1%nat (mkSynapse "hi" 2) (mkSynapse EmptyString 2)
             (mkTerminalInfo None 200 "OK")); reflexivity.
Defined.

(** X8.  The uids and the timeout are never consulted for anything but
    [uids] and [timings]: with other uids and another timeout the
    constructor leaves the same store and gives the same completions,
    status messages and status codes, and with the same timeout the same
    timings. *)
Theorem uids_and_timeout_not_consulted (h : gmap positive TerminalInfo)
    (rs : list Synapse) (us us' : list Z) (t t' : Q) :
  wf h rs →
  ∃ h1 ev ev', init h rs us t = Some (h1, ev)
    ∧ init h rs us' t' = Some (h1, ev')
    ∧ completions ev = completions ev'
    ∧ status_messages ev = status_messages ev'
    ∧ status_codes ev = status_codes ev'
    ∧ (t = t' → timings ev = timings ev').
Proof.
  intros Hwf.
  destruct (init_spec h rs us t Hwf) as (h1 & ev & E & P).
  destruct (init_spec h rs us' t' Hwf) as (h1' & ev' & E' & P').
  assert (h1' = h1) as ->.
  { apply map_eq. intros l.
    rewrite (post_heap _ _ _ _ _ _ P), (post_heap _ _ _ _ _ _ P').
    reflexivity. }
  exists h1, ev, ev'. split; [exact E|]. split; [exact E'|].
  destruct P as [_ _ Hc Lt Lm Lc It Im Ic].
  destruct P' as [_ _ Hc' Lt' Lm' Lc' It' Im' Ic'].
  split; [congruence|]. split; [|split].
  - apply (list_eq_on rs); [assumption..|]. intros i s Hi.
    destruct (proj1 (Forall_lookup _ _) Hwf i s Hi) as [d Hd].
    rewrite (Im i s d Hi Hd), (Im' i s d Hi Hd). reflexivity.
  - apply (list_eq_on rs); [assumption..|]. intros i s Hi.
    destruct (proj1 (Forall_lookup _ _) Hwf i s Hi) as [d Hd].
    rewrite (Ic i s d Hi Hd), (Ic' i s d Hi Hd). reflexivity.
  - intros <-. apply (list_eq_on rs); [assumption..|]. intros i s Hi.
    destruct (proj1 (Forall_lookup _ _) Hwf i s Hi) as [d Hd].
    rewrite (It i s d Hi Hd), (It' i s d Hi Hd). reflexivity.
Qed.

Lemma uids_and_timeout_not_consulted_witness :
  wf Samples.store Samples.batch
  ∧ ∃ h1 ev ev',
      init Samples.store Samples.batch [7; 8; 9] 10%Q = Some (h1, ev)
      ∧ init Samples.store Samples.batch [] 3%Q = Some (h1, ev')
      ∧ completions ev = completions ev'
      ∧ status_messages ev = status_messages ev'
      ∧ status_codes ev = status_codes ev'.
Proof.
  split; [exact wf_batch|].
  destruct (uids_and_timeout_not_consulted Samples.store Samples.batch
              [7; 8; 9] [] 10%Q 3%Q wf_batch)
    as (h1 & ev & ev' & E & E' & Hc & Hm & Hs & _).
  exists h1, ev, ev'. auto 10.
Defined.

(** *** Batches in sequence, batches reordered *)

Lemma touched_app (rs1 rs2 : list Synapse) (l : positive) :
  touched (rs1 ++ rs2) l = touched rs1 l || touched rs2 l.
Proof. unfold touched. apply existsb_app. Qed.

Lemma reclassified_app (rs1 rs2 : list Synapse) (l : positive)
    (d : TerminalInfo) :
  reclassified (rs1 ++ rs2) l d = reclassified rs2 l (reclassified rs1 l d).
Proof.
  unfold reclassified. rewrite touched_app.
  destruct (touched rs1 l), (touched rs2 l),
    (status_code d =? 200) eqn:E; simpl; rewrite ?E; reflexivity.
Qed.

Lemma init_wf_after (h : gmap positive TerminalInfo) (rs rs' : list Synapse)
    (us : list Z) (t : Q) h1 ev :
  init_post h rs us t h1 ev → wf h rs' → wf h1 rs'.
Proof.
  intros P. unfold wf. intros H.
  eapply Forall_impl; [exact H|]. simpl. intros x [d Hx].
  rewrite (post_heap _ _ _ _ _ _ P), Hx. simpl. eauto.
Qed.

(** X9.  Constructing an event from a batch [rs1 ++ rs2] leaves the store that
    constructing one from [rs1] and then one from [rs2] leaves; its
    completions, status messages and timings are those of the two events
    one after the other, and its status codes from position [length rs1]
    on are those of the second event. *)
Theorem init_app (h : gmap positive TerminalInfo)
    (rs1 rs2 : list Synapse) (us us1 us2 : list Z) (t : Q) :
  wf h (rs1 ++ rs2) →
  ∃ h1 ev1 h2 ev2 ev,
    init h rs1 us1 t = Some (h1, ev1)
    ∧ init h1 rs2 us2 t = Some (h2, ev2)
    ∧ init h (rs1 ++ rs2) us t = Some (h2, ev)
    ∧ completions ev = completions ev1 ++ completions ev2
    ∧ status_messages ev = status_messages ev1 ++ status_messages ev2
    ∧ timings ev = timings ev1 ++ timings ev2
    ∧ drop (length rs1) (status_codes ev) = status_codes ev2.
Proof.
  intros Hwf. pose proof Hwf as Hwf12.
  apply Forall_app in Hwf as [Hwf1 Hwf2].
  destruct (init_spec h rs1 us1 t Hwf1) as (h1 & ev1 & E1 & P1).
  pose proof (init_wf_after _ _ rs2 _ _ _ _ P1 Hwf2) as Hwf2'.
  destruct (init_spec h1 rs2 us2 t Hwf2') as (h2 & ev2 & E2 & P2).
  destruct (init_spec h (rs1 ++ rs2) us t Hwf12) as (h12 & ev & E & P).
  assert (h12 = h2) as ->.
  { apply map_eq. intros l.
    rewrite (post_heap _ _ _ _ _ _ P), (post_heap _ _ _ _ _ _ P2),
      (post_heap _ _ _ _ _ _ P1).
    destruct (h !! l); simpl; [|reflexivity].
    rewrite reclassified_app. reflexivity. }
  exists h1, ev1, h2, ev2, ev. do 3 (split; [assumption|]).
  pose proof (post_heap _ _ _ _ _ _ P1) as Hh1.
  destruct P1 as [_ _ Hc1 Lt1 Lm1 Lc1 It1 Im1 Ic1].
  destruct P2 as [_ _ Hc2 Lt2 Lm2 Lc2 It2 Im2 Ic2].
  destruct P as [_ _ Hc Lt Lm Lc It Im Ic].
  assert (Hsplit : ∀ i s, (rs1 ++ rs2) !! i = Some s →
            (i < length rs1 ∧ rs1 !! i = Some s)%nat
            ∨ (length rs1 ≤ i ∧ rs2 !! (i - length rs1)%nat = Some s)%nat).
  { intros i s Hi. destruct (decide (i < length rs1)%nat) as [Hlt|Hge].
    - left. rewrite lookup_app_l in Hi by exact Hlt. auto.
    - right. rewrite lookup_app_r in Hi by lia. split; [lia|exact Hi]. }
  split; [rewrite Hc, Hc1, Hc2; apply map_app|]. split; [|split].
  - apply (list_eq_on (rs1 ++ rs2)); [assumption| |].
    { rewrite !length_app. lia. }
    intros i s Hi.
    destruct (proj1 (Forall_lookup _ _) Hwf12 i s Hi) as [d Hd].
    rewrite (Im i s d Hi Hd).
    destruct (Hsplit i s Hi) as [[Hlt H1]|[Hge H2]].
    + rewrite lookup_app_l by lia. symmetry. apply (Im1 i s d H1 Hd).
    + rewrite lookup_app_r by lia. rewrite Lm1. symmetry.
      destruct (reclassified_fields rs1 (dendrite s) d) as (_ & <- & _).
      apply (Im2 _ s _ H2). rewrite Hh1, Hd. reflexivity.
  - apply (list_eq_on (rs1 ++ rs2)); [assumption| |].
    { rewrite !length_app. lia. }
    intros i s Hi.
    destruct (proj1 (Forall_lookup _ _) Hwf12 i s Hi) as [d Hd].
    rewrite (It i s d Hi Hd).
    destruct (Hsplit i s Hi) as [[Hlt H1]|[Hge H2]].
    + rewrite lookup_app_l by lia. symmetry. apply (It1 i s d H1 Hd).
    + rewrite lookup_app_r by lia. rewrite Lt1. symmetry.
      destruct (reclassified_fields rs1 (dendrite s) d) as (<- & _ & _).
      apply (It2 _ s _ H2). rewrite Hh1, Hd. reflexivity.
  - apply (list_eq_on rs2); [|assumption|].
    { rewrite length_drop, Lc, length_app. lia. }
    intros k s Hk. rewrite lookup_drop.
    assert (Hi : (rs1 ++ rs2) !! (length rs1 + k)%nat = Some s).
    { rewrite lookup_app_r by lia.
      replace (length rs1 + k - length rs1)%nat with k by lia. exact Hk. }
    destruct (proj1 (Forall_lookup _ _) Hwf12 _ s Hi) as [d Hd].
    rewrite (Ic _ s d Hi Hd).
    rewrite (Ic2 k s (reclassified rs1 (dendrite s) d) Hk)
      by (rewrite Hh1, Hd; reflexivity).
    f_equal. rewrite touched_app. unfold reclassified.
    destruct (touched rs1 (dendrite s)), (touched rs2 (dendrite s)),
      (status_code d =? 200) eqn:Ec; simpl; rewrite ?Ec; reflexivity.
Qed.

Lemma init_app_witness :
  wf Samples.store (Samples.silent_batch ++ Samples.batch)
  ∧ ∃ h1 ev1 h2 ev2 ev,
      init Samples.store Samples.silent_batch [7] 10%Q = Some (h1, ev1)
      ∧ init h1 Samples.batch [8; 9; 10] 10%Q = Some (h2, ev2)
      ∧ init Samples.store (Samples.silent_batch ++ Samples.batch)
          [7; 8; 9; 10] 10%Q = Some (h2, ev)
      ∧ timings ev = timings ev1 ++ timings ev2.
Proof.
  assert (Hwf : wf Samples.store (Samples.silent_batch ++ Samples.batch)).
  { repeat constructor; eexists; reflexivity. }
  split; [exact Hwf|].
  destruct (init_app Samples.store Samples.silent_batch Samples.batch
              [7; 8; 9; 10] [7] [8; 9; 10] 10%Q Hwf)
    as (h1 & ev1 & h2 & ev2 & ev & E1 & E2 & E & _ & _ & Ht & _).
  exists h1, ev1, h2, ev2, ev. auto.
Defined.

Lemma touched_perm (rs rs' : list Synapse) (l : positive) :
  rs ≡ₚ rs' → touched rs l = touched rs' l.
Proof.
  intros Hp. unfold touched. apply eq_true_iff_eq.
  rewrite !existsb_exists. split; intros (s & Hin & Hs); exists s;
    (split; [|exact Hs]).
  - eapply Permutation_in; [exact Hp|exact Hin].
  - eapply Permutation_in; [symmetry; exact Hp|exact Hin].
Qed.

(** X10.  The store the constructor leaves does not depend on the order of the
    responses in the batch. *)
Theorem store_independent_of_order (h : gmap positive TerminalInfo)
    (rs rs' : list Synapse) (us us' : list Z) (t : Q) :
  wf h rs → rs ≡ₚ rs' →
  ∃ h1 ev ev', init h rs us t = Some (h1, ev)
               ∧ init h rs' us' t = Some (h1, ev').
Proof.
  intros Hwf Hp.
  assert (Hwf' : wf h rs').
  { unfold wf in *. rewrite <- Hp. exact Hwf. }
  destruct (init_spec h rs us t Hwf) as (h1 & ev & E & P).
  destruct (init_spec h rs' us' t Hwf') as (h1' & ev' & E' & P').
  assert (h1' = h1) as ->.
  { apply map_eq. intros l.
    rewrite (post_heap _ _ _ _ _ _ P), (post_heap _ _ _ _ _ _ P').
    destruct (h !! l); simpl; [|reflexivity].
    unfold reclassified. rewrite (touched_perm rs rs' l Hp). reflexivity. }
  exists h1, ev, ev'. auto.
Qed.

Lemma store_independent_of_order_witness :
  (wf Samples.store Samples.batch ∧ Samples.batch ≡ₚ rev Samples.batch)
  ∧ ∃ h1 ev ev',
      init Samples.store Samples.batch [7; 8; 9] 10%Q = Some (h1, ev)
      ∧ init Samples.store (rev Samples.batch) [9; 8; 7] 10%Q
        = Some (h1, ev').
Proof.
  assert (Hp : Samples.batch ≡ₚ rev Samples.batch)
    by apply Permutation_rev.
  split; [split; [exact wf_batch|exact Hp]|].
  exact (store_independent_of_order Samples.store Samples.batch
           (rev Samples.batch) [7; 8; 9] [9; 8; 7] 10%Q wf_batch Hp).
Defined.

(** *** [__state_dict__] *)

Lemma state_dict_lookups (ev : ResponseEvent) :
  __state_dict__ ev !! "uids" = Some (Ints (uids ev))
  ∧ __state_dict__ ev !! "completions" = Some (Strs (completions ev))
  ∧ __state_dict__ ev !! "timings" = Some (Nums (timings ev))
  ∧ __state_dict__ ev !! "status_messages"
    = Some (Strs (status_messages ev))
  ∧ __state_dict__ ev !! "status_codes" = Some (Ints (status_codes ev)).
Proof.
  unfold __state_dict__. repeat split;
    repeat (rewrite lookup_insert_ne by discriminate);
    apply lookup_insert_eq.
Qed.

(** X11.  The state dict loses nothing: two events with the same state dict
    are the same event. *)
Theorem state_dict_lossless (ev ev' : ResponseEvent) :
  __state_dict__ ev = __state_dict__ ev' ↔ ev = ev'.
Proof.
  split; [|intros ->; reflexivity]. intros H.
  destruct (state_dict_lookups ev) as (U & C & T & M & S).
  destruct (state_dict_lookups ev') as (U' & C' & T' & M' & S').
  rewrite H in U, C, T, M, S.
  rewrite U in U'. rewrite C in C'. rewrite T in T'.
  rewrite M in M'. rewrite S in S'.
  destruct ev, ev'; simpl in *. congruence.
Qed.

(** X12.  When as many uids as responses are supplied, every entry of the state
    dict of the constructed event is a list of the length of the batch,
    and the dict has the five keys and no other. *)
Theorem state_dict_columns (h : gmap positive TerminalInfo)
    (rs : list Synapse) (us : list Z) (t : Q) :
  wf h rs → length us = length rs →
  ∃ h1 ev, init h rs us t = Some (h1, ev)
    ∧ (∀ k v, __state_dict__ ev !! k = Some v →
              pylist_length v = length rs)
    ∧ ∀ k, is_Some (__state_dict__ ev !! k)
           ↔ k ∈ ["uids"; "completions"; "timings"; "status_messages";
                  "status_codes"].
Proof.
  intros Hwf Hlen. destruct (init_spec h rs us t Hwf) as (h1 & ev & E & P).
  exists h1, ev. split; [exact E|].
  destruct P as [_ Hu Hc Lt Lm Lc _ _ _].
  assert (Lcomp : length (completions ev) = length rs)
    by (rewrite Hc; apply length_map).
  split.
  - intros k v. unfold __state_dict__.
    repeat (rewrite lookup_insert; case_decide;
            [intros [= <-]; simpl; congruence|]).
    rewrite lookup_empty. discriminate.
  - intros k. unfold __state_dict__. split.
    + repeat (rewrite lookup_insert; case_decide;
              [subst k; intros _;
               repeat (first [apply list_elem_of_here
                             |apply list_elem_of_further])|]).
      rewrite lookup_empty. intros [? ?]. discriminate.
    + intros Hk. repeat (rewrite lookup_insert; case_decide; [eauto|]).
      exfalso.
      repeat (apply elem_of_cons in Hk as [Hk|Hk]; [congruence|]).
      apply elem_of_nil in Hk. exact Hk.
Qed.

Lemma state_dict_columns_witness :
  (wf Samples.store Samples.batch ∧ length [7; 8; 9] = length Samples.batch)
  ∧ ∃ h1 ev, init Samples.store Samples.batch [7; 8; 9] 10%Q = Some (h1, ev)
      ∧ ∃ v, __state_dict__ ev !! "timings" = Some v
             ∧ pylist_length v = 3%nat.
Proof.
  split; [split; [exact wf_batch|reflexivity]|].
  destruct (state_dict_columns Samples.store Samples.batch [7; 8; 9] 10%Q
              wf_batch eq_refl) as (h1 & ev & E & H & _).
  exists h1, ev. split; [exact E|].
  destruct (state_dict_lookups ev) as (_ & _ & T & _).
  eexists. split; [exact T|]. exact (H _ _ T).
Defined.

End DendriteMoreFacts.

(** ** More facts about [vLLM_LLM] and [vLLMPipeline] *)

Module VllmMoreFacts.
Import VllmLLM VllmMore.

(** *** String concatenation *)

Lemma append_nil_r (s : string) : s +:+ EmptyString = s.
Proof.
  induction s as [|a s IH]; [reflexivity|].
  change (String a (s +:+ EmptyString) = String a s). rewrite IH. reflexivity.
Qed.

Lemma append_assoc (s1 s2 s3 : string) :
  (s1 +:+ s2) +:+ s3 = s1 +:+ (s2 +:+ s3).
Proof.
  induction s1 as [|a s1 IH]; [reflexivity|].
  change (String a ((s1 +:+ s2) +:+ s3) = String a (s1 +:+ (s2 +:+ s3))).
  rewrite IH. reflexivity.
Qed.

Lemma fold_render (msgs : list Message) :
  ∀ acc, fold_left (λ composed_prompt message,
                      composed_prompt +:+ render message) msgs acc
         = acc +:+ body msgs.
Proof.
  unfold body. induction msgs as [|m msgs IH]; intros acc; simpl.
  - symmetry. apply append_nil_r.
  - change (EmptyString +:+ render m) with (render m).
    rewrite (IH (acc +:+ render m)), (IH (render m)).
    apply append_assoc.
Qed.

Lemma body_cons (m : Message) (msgs : list Message) :
  body (m :: msgs) = render m +:+ body msgs.
Proof. unfold body at 1. simpl. apply fold_render. Qed.

Lemma body_app (l1 l2 : list Message) :
  body (l1 ++ l2) = body l1 +:+ body l2.
Proof.
  induction l1 as [|m l1 IH]; simpl; [reflexivity|].
  rewrite !body_cons, IH. symmetry. apply append_assoc.
Qed.

Lemma make_prompt_body (msgs : list Message) :
  _make_prompt msgs
  = body msgs +:+ "<|start_header_id|>assistant<|end_header_id|>".
Proof. reflexivity. Qed.

(** *** [_make_prompt] *)

(** X13.  The prompt of a longer conversation is the prompt of the shorter one
    with the text of the new messages put before the final assistant
    tag. *)
Theorem make_prompt_app (l1 l2 : list Message) :
  _make_prompt (l1 ++ l2) = body l1 +:+ _make_prompt l2
  ∧ _make_prompt (l1 ++ l2)
    = body l1 +:+ body l2
      +:+ "<|start_header_id|>assistant<|end_header_id|>".
Proof.
  rewrite !make_prompt_body, body_app, append_assoc. split; reflexivity.
Qed.

Lemma render_unknown (m : Message) :
  known_role m = false → render m = EmptyString.
Proof.
  unfold known_role, render. intros H.
  destruct (String.eqb (role m) "system"); [discriminate|].
  destruct (String.eqb (role m) "user"); [discriminate|].
  destruct (String.eqb (role m) "assistant"); [discriminate|].
  reflexivity.
Qed.

(** X14.  A message whose role is none of system, user and assistant leaves no
    trace in the prompt: dropping such messages gives the same prompt. *)
Theorem make_prompt_drops_unknown_roles (msgs : list Message) :
  _make_prompt (List.filter known_role msgs) = _make_prompt msgs.
Proof.
  rewrite !make_prompt_body. f_equal.
  induction msgs as [|m msgs IH]; simpl; [reflexivity|].
  destruct (known_role m) eqn:Hk.
  - rewrite !body_cons, IH. reflexivity.
  - rewrite body_cons, (render_unknown m Hk), IH. reflexivity.
Qed.

(** *** The conversation log *)

Section Log.

Variable llm_pipeline : string → ModelKwargs → option string.
Variable Cleaner : Type.
Variable clean_response : option Cleaner → string → string.

Abbreviation reachable' := (reachable llm_pipeline Cleaner clean_response).

Lemma query_fields (self : vLLM_LLM) (message role0 : string)
    (disregard : bool) (cleaner : option Cleaner) (t0 t1 : Q)
    (response : string) (self' : vLLM_LLM) :
  query llm_pipeline Cleaner clean_response
    self message role0 disregard cleaner t0 t1 = Some (response, self') →
  system_prompt self' = system_prompt self
  ∧ model_kwargs self' = model_kwargs self
  ∧ messages self'
    = messages self ++ [mkMessage message role0;
                        mkMessage response "assistant"]
  ∧ times self' = times self ++ [0%Q; (t1 - t0)%Q].
Proof.
  unfold query.
  destruct (forward llm_pipeline self
              (messages self ++ [mkMessage message role0])) as [r|];
    simpl; [|discriminate].
  intros [= <- <-]. simpl. rewrite <- app_assoc. auto.
Qed.

Lemma reachable_frame (sp : string) (n : Z) (tp pp : Q)
    (self : vLLM_LLM) :
  reachable' sp n tp pp self →
  system_prompt self = sp
  ∧ model_kwargs self = mkModelKwargs tp pp n
  ∧ messages self !! 0%nat = Some (mkMessage sp "system").
Proof.
  intros Hr. induction Hr as [|self message role0 disregard cleaner
                               t0 t1 response self' _ IH Hq].
  - auto.
  - destruct IH as (Hs & Hk & Hm).
    destruct (query_fields _ _ _ _ _ _ _ _ _ Hq) as (-> & -> & -> & _).
    do 2 (split; [assumption|]).
    rewrite lookup_app_l; [exact Hm|].
    apply lookup_lt_Some in Hm. exact Hm.
Qed.

(** X15.  Whatever is asked, the object keeps the system prompt and the
    sampling arguments it was constructed with, and the first message of
    its log stays the system message. *)
Theorem log_keeps_system_prompt (sp : string) (n : Z) (tp pp : Q)
    (self : vLLM_LLM) :
  reachable' sp n tp pp self →
  system_prompt self = sp
  ∧ model_kwargs self = mkModelKwargs tp pp n
  ∧ messages self !! 0%nat = Some (mkMessage sp "system").
Proof. apply reachable_frame. Qed.

(** X16.  [times] holds 0 at position 0 and at every odd position, the
    positions of the system message and of the messages passed to
    [query]; its length is odd. *)
Theorem times_zero_off_responses (sp : string) (n : Z) (tp pp : Q)
    (self : vLLM_LLM) :
  reachable' sp n tp pp self →
  Nat.odd (length (times self)) = true
  ∧ ∀ k, (k < length (times self))%nat → k = 0%nat ∨ Nat.odd k = true →
         times self !! k = Some 0%Q.
Proof.
  intros Hr. induction Hr as [|self message role0 disregard cleaner
                               t0 t1 response self' _ IH Hq].
  - split; [reflexivity|]. intros k Hk _. simpl in Hk.
    replace k with 0%nat by lia. reflexivity.
  - destruct IH as (Hodd & Hz).
    destruct (query_fields _ _ _ _ _ _ _ _ _ Hq) as (_ & _ & _ & ->).
    rewrite length_app. simpl. split.
    + replace (length (times self) + 2)%nat
        with (S (S (length (times self)))) by lia.
      rewrite Nat.odd_succ_succ. exact Hodd.
    + intros k Hk Hpos.
      destruct (decide (k < length (times self))%nat) as [Hlt|Hge].
      * rewrite lookup_app_l by exact Hlt. apply Hz; assumption.
      * rewrite lookup_app_r by lia.
        destruct (decide (k = length (times self))) as [->|Hne].
        -- rewrite Nat.sub_diag. reflexivity.
        -- exfalso. assert (k = S (length (times self))) as -> by lia.
           destruct Hpos as [Hpos|Hpos]; [discriminate|].
           rewrite Nat.odd_succ, <- Nat.negb_odd, Hodd in Hpos.
           discriminate.
Qed.

(** X17.  The system message is at position 0 of [messages] and the responses,
    with role assistant, are at the even positions from 2 on. *)
Theorem responses_at_even_positions (sp : string) (n : Z) (tp pp : Q)
    (self : vLLM_LLM) :
  reachable' sp n tp pp self →
  Nat.odd (length (messages self)) = true
  ∧ ∀ k m, messages self !! k = Some m → Nat.even k = true →
           role m = if decide (k = 0%nat) then "system" else "assistant".
Proof.
  intros Hr. induction Hr as [|self message role0 disregard cleaner
                               t0 t1 response self' _ IH Hq].
  - split; [reflexivity|]. intros [|k] m Hm _; simpl in Hm.
    + injection Hm as <-. reflexivity.
    + discriminate.
  - destruct IH as (Hodd & Hz).
    destruct (query_fields _ _ _ _ _ _ _ _ _ Hq) as (_ & _ & -> & _).
    rewrite length_app. simpl. split.
    + replace (length (messages self) + 2)%nat
        with (S (S (length (messages self)))) by lia.
      rewrite Nat.odd_succ_succ. exact Hodd.
    + intros k m Hm Hev.
      destruct (decide (k < length (messages self))%nat) as [Hlt|Hge].
      * rewrite lookup_app_l in Hm by exact Hlt. apply Hz; assumption.
      * rewrite lookup_app_r in Hm by lia.
        assert (k ≠ length (messages self)) as Hne.
        { intros ->. rewrite <- Nat.negb_odd, Hodd in Hev. discriminate. }
        destruct (k - length (messages self))%nat as [|[|j]] eqn:Hj;
          simpl in Hm; [lia| |discriminate].
        injection Hm as <-. simpl.
        destruct (decide (k = 0%nat)); [lia|reflexivity].
Qed.

(** X18.  Every prompt [query] sends to the pipeline opens with the system
    message of the object's system prompt and closes with the assistant
    tag. *)
Theorem query_prompt_shape (sp : string) (n : Z) (tp pp : Q)
    (self : vLLM_LLM) (message role0 : string) :
  reachable' sp n tp pp self →
  ∃ rest,
    _make_prompt (messages self ++ [mkMessage message role0])
    = ("<|begin_of_text|><|start_header_id|>system<|end_header_id|>"
       +:+ newline +:+ "{{ " +:+ sp +:+ " }}<|eot_id|>")
      +:+ rest +:+ "<|start_header_id|>assistant<|end_header_id|>".
Proof.
  intros Hr.
  destruct (reachable_frame sp n tp pp self Hr) as (_ & _ & H0).
  destruct (messages self) as [|m0 tl]; [discriminate|].
  simpl in H0. injection H0 as ->.
  exists (body (tl ++ [mkMessage message role0])).
  rewrite make_prompt_body. simpl app. rewrite body_cons.
  rewrite append_assoc. reflexivity.
Qed.

End Log.

(** *** Through a [vLLMPipeline] *)

Section Pipeline.

Variable mock_llm : string → gmap string PyNum → string.
Variable generate : string → SamplingParams → list (list string).
Variable Cleaner : Type.
Variable clean_response : option Cleaner → string → string.

Lemma sampling_params_kwargs (kw : ModelKwargs) :
  sampling_params (kwargs_dict kw)
  = mkSamplingParams (PyFloat (temperature kw)) (PyFloat (top_p kw))
                     (PyInt (max_tokens kw)).
Proof.
  unfold sampling_params, kwargs_dict.
  rewrite lookup_insert_eq.
  rewrite lookup_insert_ne, lookup_insert_eq by discriminate.
  rewrite !lookup_insert_ne, lookup_insert_eq by discriminate.
  reflexivity.
Qed.

(** X19.  On an engine-backed pipeline (not mock) every [forward] of an object
    built with sampling arguments [tp], [pp], [n] calls the engine with
    exactly these: the defaults 0.8, 0.95 and 256 of
    [vLLMPipeline.__call__] are never used.  It returns the text of the
    first output of the first request and raises when there is none. *)
Theorem forward_uses_constructor_sampling (pipe : vLLMPipeline)
    (sp : string) (n : Z) (tp pp : Q) (self : vLLM_LLM)
    (msgs : list Message) :
  mock pipe = false →
  reachable (as_llm_pipeline mock_llm generate pipe) Cleaner clean_response
    sp n tp pp self →
  forward (as_llm_pipeline mock_llm generate pipe) self msgs
  = (generate (_make_prompt msgs)
       (mkSamplingParams (PyFloat tp) (PyFloat pp) (PyInt n)) !! 0%nat)
    ≫= (λ request, request !! 0%nat).
Proof.
  intros Hm Hr.
  destruct (reachable_frame _ _ _ sp n tp pp self Hr)
    as (_ & Hk & _).
  unfold forward, as_llm_pipeline, __call__. rewrite Hm, Hk.
  rewrite sampling_params_kwargs. simpl.
  destruct (generate _ _ !! 0%nat) as [request|]; simpl; [|reflexivity].
  destruct (request !! 0%nat); reflexivity.
Qed.

End Pipeline.

End VllmMoreFacts.

(** *** The theorems above at concrete inputs *)

Module VllmMoreWitnesses.
Import VllmLLM VllmMore VllmMoreFacts SamplesMore.

Lemma reach_llm1 :
  reachable Samples.echo_pipeline unit Samples.no_clean
    "You are a helpful AI assistant" 256 (7 # 10) (95 # 100) llm1.
Proof.
  eapply (reach_query _ _ _ _ _ _ _ llm0
            "What is the capital of Texas?" "user" false None
            100%Q (201 # 2)%Q "Austin" llm1).
  - apply reach_init.
  - reflexivity.
Defined.

Lemma log_keeps_system_prompt_witness :
  reachable Samples.echo_pipeline unit Samples.no_clean
    "You are a helpful AI assistant" 256 (7 # 10) (95 # 100) llm1
  ∧ system_prompt llm1 = "You are a helpful AI assistant"
  ∧ model_kwargs llm1 = mkModelKwargs (7 # 10) (95 # 100) 256
  ∧ messages llm1 !! 0%nat
    = Some (mkMessage "You are a helpful AI assistant" "system").
Proof.
  split; [exact reach_llm1|].
  exact (log_keeps_system_prompt _ _ _ _ _ _ _ llm1 reach_llm1).
Defined.

Lemma times_zero_off_responses_witness :
  reachable Samples.echo_pipeline unit Samples.no_clean
    "You are a helpful AI assistant" 256 (7 # 10) (95 # 100) llm1
  ∧ times llm1 !! 1%nat = Some 0%Q.
Proof.
  split; [exact reach_llm1|].
  destruct (times_zero_off_responses _ _ _ _ _ _ _ llm1 reach_llm1)
    as (_ & H).
  apply H; [simpl; lia|right; reflexivity].
Defined.

Lemma responses_at_even_positions_witness :
  reachable Samples.echo_pipeline unit Samples.no_clean
    "You are a helpful AI assistant" 256 (7 # 10) (95 # 100) llm1
  ∧ (role <$> messages llm1 !! 2%nat) = Some "assistant".
Proof.
  split; [exact reach_llm1|].
  destruct (responses_at_even_positions _ _ _ _ _ _ _ llm1 reach_llm1)
    as (_ & H).
  exact (f_equal Some
           (H 2%nat (mkMessage "Austin" "assistant") eq_refl eq_refl)).
Defined.

Lemma query_prompt_shape_witness :
  reachable Samples.echo_pipeline unit Samples.no_clean
    "You are a helpful AI assistant" 256 (7 # 10) (95 # 100) llm1
  ∧ ∃ rest,
      _make_prompt (messages llm1 ++ [mkMessage "And of Ohio?" "user"])
      = ("<|begin_of_text|><|start_header_id|>system<|end_header_id|>"
         +:+ newline +:+ "{{ " +:+ "You are a helpful AI assistant"
         +:+ " }}<|eot_id|>")
        +:+ rest +:+ "<|start_header_id|>assistant<|end_header_id|>".
Proof.
  split; [exact reach_llm1|].
  exact (query_prompt_shape _ _ _ _ _ _ _ llm1 "And of Ohio?" "user"
           reach_llm1).
Defined.

Lemma forward_uses_constructor_sampling_witness :
  (mock engine_pipe = false
   ∧ reachable (as_llm_pipeline unused_mock one_output engine_pipe)
       unit Samples.no_clean
       "You are a helpful AI assistant" 256 (7 # 10) (95 # 100) llm0)
  ∧ forward (as_llm_pipeline unused_mock one_output engine_pipe) llm0
      (messages llm0 ++ [mkMessage "What is the capital of Texas?" "user"])
    = Some "Austin".
Proof.
  split; [split; [reflexivity|apply reach_init]|].
  rewrite (forward_uses_constructor_sampling unused_mock one_output unit
             Samples.no_clean engine_pipe
             "You are a helpful AI assistant" 256 (7 # 10) (95 # 100) llm0
             _ eq_refl (reach_init _ _ _ _ _ _ _)).
  reflexivity.
Defined.

End VllmMoreWitnesses.
